(** * lytest: the layout-difference engine ([lytest/kdb_xor.py])

    A shallow embedding of [kdb_xor.py] and the properties of its three
    comparison routines: [run_xor] (in-process [klayout.db]),
    [run_xor_pya] (the [klayout] executable run as a subprocess) and
    [run_xor_phidl] ([phidl]/[gdspy] polygon booleans), together with the
    import-time choice between them.

    The geometry engines themselves ([klayout.db], [gdspy], [phidl], the
    operating system's process launcher) are libraries outside the
    repository.  They appear here as parameters: a class of region
    operations, a reader of layout files, a polygon boolean, a process
    launcher.  A concrete pixel-set engine is supplied at the end of the
    definitions so that every statement can be run on real inputs. *)

From Stdlib Require Import ZArith String Ascii DecimalString DecimalZ DecimalPos.
From Stdlib Require Import Floats.
From stdpp Require Import base option list sorting gmap strings.

Local Open Scope string_scope.
Local Open Scope list_scope.

(** ** Python values, exceptions and the effect monad *)

(** Elements of an exception's [args] tuple. *)
Inductive pyobj : Type :=
| PyInt (n : Z)
| PyStr (s : string).

(** [str(x)] on the two kinds of value above. *)
Definition py_str (x : pyobj) : string :=
  match x with
  | PyInt n => NilZero.string_of_int (Z.to_int n)
  | PyStr s => s
  end.

(** A layer as [kdb.LayerInfo] identifies it: layer number and datatype. *)
Record LayerInfo : Type := mkLayerInfo { layer : Z; datatype : Z }.

Global Instance LayerInfo_eq_dec : EqDecision LayerInfo.
Proof. solve_decision. Defined.

(** The text of a [GeometryDifference].  Each constructor stands for one
    format string of [kdb_xor.py] with the arguments [format] receives, in
    the order it receives them:
    - [Msg_layer li fa fb]:
      ["Layer {} of layout {} not present in layout {}."]
    - [Msg_topcell n1 n2]:
      ["Missing topcell on one of the layouts, or name differs:\n{}\n{}"]
    - [Msg_dbu f1 d1 f2 d2]:
      ["Database unit of layout {} ({}) differs from that of layout {} ({})."]
    - [Msg_differences f1 f2]:
      ["Differences found between layouts {} and {}"]. *)
Inductive message : Type :=
| Msg_layer (li : LayerInfo) (fa fb : string)
| Msg_topcell (tc1_names tc2_names : list string)
| Msg_dbu (file1 : string) (dbu1 : float) (file2 : string) (dbu2 : float)
| Msg_differences (file1 file2 : string).

(** The exceptions that travel through [kdb_xor.py].  [GeometryDifference]
    is the only class the module declares; the others are Python's own or
    the libraries' ([TypeError] is what a [klayout.db] call raises for an
    argument its parameter type has no room for). *)
Inductive exn : Type :=
| GeometryDifference (m : message)
| FileNotFoundError (args : list pyobj)
| CalledProcessError (returncode : Z) (cmd : list string)
| AttributeError (what : string)
| IndexError
| ImportError (module : string)
| TypeError (what : string)
| LibraryError (what : string).

(** The class of a raised exception, as an [except] clause tests it. *)
Inductive exn_class : Type :=
| Cls_GeometryDifference
| Cls_FileNotFoundError
| Cls_CalledProcessError
| Cls_AttributeError
| Cls_IndexError
| Cls_ImportError
| Cls_TypeError
| Cls_LibraryError.

Global Instance exn_class_eq_dec : EqDecision exn_class.
Proof. solve_decision. Defined.

Definition class_of (e : exn) : exn_class :=
  match e with
  | GeometryDifference _ => Cls_GeometryDifference
  | FileNotFoundError _ => Cls_FileNotFoundError
  | CalledProcessError _ _ => Cls_CalledProcessError
  | AttributeError _ => Cls_AttributeError
  | IndexError => Cls_IndexError
  | ImportError _ => Cls_ImportError
  | TypeError _ => Cls_TypeError
  | LibraryError _ => Cls_LibraryError
  end.

(** What [print] writes.  As for [message], a constructor per format
    string:
    - [Line_differences n tc li]:
      ["{} differences found in {} on layer {}."]
    - [Line_no_differences tc li]:
      ["No differences found in {} on layer {}."]
    - [Line_exn e]: [print(err)] of a caught exception. *)
Inductive line : Type :=
| Line_differences (n : nat) (tc_name : string) (li : LayerInfo)
| Line_no_differences (tc_name : string) (li : LayerInfo)
| Line_exn (e : exn).

(** What a run leaves behind, in order: the lines printed, and (ghost,
    for stating which geometry was looked at) one [Ev_xor] per evaluation
    of [r1 ^ r2], tagged with the top cell's name and the two layer
    indices. *)
Inductive event : Type :=
| Ev_print (l : line)
| Ev_xor (tc_name : string) (ll1 ll2 : nat).

Inductive outcome (A : Type) : Type :=
| Return (a : A)
| Raise (e : exn).
Arguments Return {A} a.
Arguments Raise {A} e.

(** A Python computation: the events it emits and how it ends. *)
Definition py (A : Type) : Type := (list event * outcome A)%type.

Definition py_bind {A B : Type} (f : A → py B) (c : py A) : py B :=
  match c with
  | (ev, Return a) => let '(ev', r) := f a in (ev ++ ev', r)
  | (ev, Raise e) => (ev, Raise e)
  end.

Global Instance py_mret : MRet py := λ A a, ([], Return a).
Global Instance py_mbind : MBind py := @py_bind.

Definition raise {A : Type} (e : exn) : py A := ([], Raise e).
Definition print (l : line) : py unit := ([Ev_print l], Return tt).
Definition note_xor (tc_name : string) (ll1 ll2 : nat) : py unit :=
  ([Ev_xor tc_name ll1 ll2], Return tt).
Definition lift {A : Type} (o : outcome A) : py A := ([], o).

(** [try: body / except ...: handler].  [handler e] is [None] when no
    clause matches [e]. *)
Definition try_except {A : Type} (body : py A)
    (handler : exn → option (py A)) : py A :=
  match body with
  | (ev, Return a) => (ev, Return a)
  | (ev, Raise e) =>
      match handler e with
      | Some h => let '(ev', r) := h in (ev ++ ev', r)
      | None => (ev, Raise e)
      end
  end.

(** [for x in xs: s = body(x, s)]: a loop carrying the variables it
    assigns; a [raise] in the body leaves the loop. *)
Fixpoint for_in {A S : Type} (xs : list A) (body : A → S → py S) (s : S)
    : py S :=
  match xs with
  | [] => mret s
  | x :: xs' => s' ← body x s; for_in xs' body s'
  end.

(** The lines printed during a run. *)
Definition stdout (evs : list event) : list line :=
  omap (λ e, match e with Ev_print l => Some l | Ev_xor _ _ _ => None end) evs.

(** The (cell, layer, layer) triples whose XOR was computed, in order. *)
Definition xors (evs : list event) : list (string * nat * nat) :=
  omap (λ e, match e with
             | Ev_xor n a b => Some (n, a, b)
             | Ev_print _ => None
             end) evs.

(** ** The in-process engine: [klayout.db]

    [kdb.Region] is the engine's own type.  [run_xor] uses four of its
    operations. *)
Class RegionOps (Region : Type) : Type := {
  (** [r1 ^ r2] *)
  region_xor : Region → Region → Region;
  (** [r.size(d)] for a coordinate [d]: the region after sizing it in
      place by [d]; a negative [d] shrinks *)
  region_size : Region → Z → Region;
  (** [r.is_empty()] *)
  region_is_empty : Region → bool;
  (** [r.size()] without argument: the number of polygons *)
  region_count : Region → nat;
}.

(** The engine's coordinates are 32-bit signed integers. *)
Definition coord_min : Z := -2147483648.
Definition coord_max : Z := 2147483647.

Definition is_coord (d : Z) : bool := (coord_min <=? d)%Z && (d <=? coord_max)%Z.

(** The call [r.size(d)] from Python: the binding converts [d] to a
    coordinate and raises [TypeError] for an integer that is none. *)
Definition size_call {Region : Type} `{!RegionOps Region} (r : Region) (d : Z)
    : outcome Region :=
  if is_coord d then Return (region_size r d)
  else Raise (TypeError "Region.size").

(** Modelled from the spec: what [klayout.db] guarantees about regions is
    not in the repository; these are the spec's words for it, each read
    as a law of the engine.
    - "[xor]: symmetric difference; [...] empty result means the two
      inputs cover identical area": the XOR of a region with itself is
      empty.
    - "erosion never grows a Region, only shrinks it": eroding an empty
      region, by any distance that is a coordinate, leaves it empty. *)
Class RegionLaws (Region : Type) `{!RegionOps Region} : Prop := {
  xor_self_empty : ∀ r : Region, region_is_empty (region_xor r r) = true;
  erode_empty : ∀ (r : Region) (d : Z),
    (0 < d ≤ - coord_min)%Z → region_is_empty r = true →
    region_is_empty (region_size r (- d)) = true;
}.

(** Modelled from the spec: "[erode(region, distance)]: shrinks the
    region's boundary inward by [distance] database units".  A boundary
    moved inward by [d] and then by [e] has moved inward by [d + e].  Of
    this only what bears on emptiness is asked of the engine: where the
    two steps leave nothing, the one step leaves nothing.  It is asked
    where the engine shrinks, for distances below 2^31. *)
Class ErosionAdds (Region : Type) `{!RegionOps Region} : Prop :=
  erode_add_empty : ∀ (r : Region) (d e : Z),
    (0 < d)%Z → (0 < e)%Z → (d + e < - coord_min)%Z →
    region_is_empty (region_size (region_size r (- d)) (- e)) = true →
    region_is_empty (region_size r (- (d + e))) = true.

(** A top cell: its name and, per layer index, the region
    [kdb.Region(tc.begin_shapes_rec(ll))] collects below it. *)
Record Cell (Region : Type) : Type := mkCell {
  name : string;
  begin_shapes_rec : nat → Region;
}.
Arguments mkCell {Region} _ _.
Arguments name {Region} _.
Arguments begin_shapes_rec {Region} _ _.

(** A [kdb.Layout] after [read]: the database unit, the valid layer
    indices with their [LayerInfo], and the top cells. *)
Record Layout (Region : Type) : Type := mkLayout {
  dbu : float;
  layer_indices : list nat;
  get_info : nat → LayerInfo;
  top_cells : list (Cell Region);
}.
Arguments mkLayout {Region} _ _ _ _.
Arguments dbu {Region} _.
Arguments layer_indices {Region} _.
Arguments get_info {Region} _ _.
Arguments top_cells {Region} _.

(** [l.find_layer(info)]: the index of the layer with these properties,
    [None] when there is none. *)
Definition find_layer {Region : Type} (l : Layout Region) (info : LayerInfo)
    : option nat :=
  List.find (λ i, bool_decide (get_info l i = info)) (layer_indices l).

(** [l.cell(name)] for the names [run_xor] asks about. *)
Definition cell {Region : Type} (l : Layout Region) (n : string)
    : option (Cell Region) :=
  List.find (λ c, String.eqb (name c) n) (top_cells l).

(** The order of Python's [str] comparison, and [list.sort()] on names. *)
Definition str_le (a b : string) : Prop := String.leb a b = true.

Global Instance str_le_dec : RelDecision str_le.
Proof. intros a b. unfold str_le. solve_decision. Defined.

Definition sort (names : list string) : list string :=
  merge_sort str_le names.

(** [x.attr] where [x] may be [None]. *)
Definition attr {A : Type} (x : option A) (what : string) : py A :=
  match x with
  | Some a => mret a
  | None => raise (AttributeError what)
  end.

(** The literal [1e-6]: the binary64 number nearest to it. *)
Definition eps_dbu : float := 0x1.0c6f7a0b5ed8dp-20%float.

(** [(l1.dbu - l2.dbu) > 1e-6] *)
Definition dbu_differs (dbu1 dbu2 : float) : bool :=
  PrimFloat.ltb eps_dbu (PrimFloat.sub dbu1 dbu2).

Section kdb.
Context {Region : Type} `{!RegionOps Region}.

(** [kdb.Layout().read(file)]: the layout in the file, or what the
    reader raises. *)
Variable kdb_read : string → outcome (Layout Region).

(** Body of the loop over [l1.layer_indices()] (lines 31-36). *)
Definition layers_body_1 (l1 l2 : Layout Region) (file1 file2 : string)
    (ll1 : nat) (layer_pairs : list (nat * nat)) : py (list (nat * nat)) :=
  let li1 := get_info l1 ll1 in
  match find_layer l2 (get_info l1 ll1) with
  | None => raise (GeometryDifference (Msg_layer li1 file1 file2))
  | Some ll2 => mret (layer_pairs ++ [(ll1, ll2)])
  end.

(** Body of the loop over [l2.layer_indices()] (lines 38-42). *)
Definition layers_body_2 (l1 l2 : Layout Region) (file1 file2 : string)
    (ll2 : nat) (_ : unit) : py unit :=
  let li2 := get_info l2 ll2 in
  match find_layer l1 (get_info l2 ll2) with
  | None => raise (GeometryDifference (Msg_layer li2 file2 file1))
  | Some ll1 => mret tt
  end.

(** Body of the inner loop of the difftool (lines 63-77). *)
Definition xor_body (l1 : Layout Region) (tolerance : Z) (verbose : bool)
    (tc1 tc2 : option (Cell Region)) (lp : nat * nat) (diff : bool)
    : py bool :=
  let '(ll1, ll2) := lp in
  c1 ← attr tc1 "begin_shapes_rec";
  let r1 := begin_shapes_rec c1 ll1 in
  c2 ← attr tc2 "begin_shapes_rec";
  let r2 := begin_shapes_rec c2 ll2 in
  _ ← note_xor (name c1) ll1 ll2;
  let rxor := region_xor r1 r2 in
  rxor ← (if (0 <? tolerance)%Z
          then lift (size_call rxor (- tolerance))
          else mret rxor);
  if negb (region_is_empty rxor) then
    _ ← (if verbose
         then print (Line_differences (region_count rxor) (name c1)
                       (get_info l1 ll1))
         else mret tt);
    mret true
  else
    _ ← (if verbose
         then print (Line_no_differences (name c1) (get_info l1 ll1))
         else mret tt);
    mret diff.

(** Body of the outer loop of the difftool (lines 61-62). *)
Definition topcell_body (l1 : Layout Region) (tolerance : Z) (verbose : bool)
    (layer_pairs : list (nat * nat))
    (tcp : option (Cell Region) * option (Cell Region)) (diff : bool)
    : py bool :=
  let '(tc1, tc2) := tcp in
  for_in layer_pairs (xor_body l1 tolerance verbose tc1 tc2) diff.

Definition run_xor (file1 file2 : string) (tolerance : Z) (verbose : bool)
    : py unit :=
  l1 ← lift (kdb_read file1);
  l2 ← lift (kdb_read file2);
  (* Check that same set of layers are present *)
  layer_pairs ← for_in (layer_indices l1)
                  (layers_body_1 l1 l2 file1 file2) [];
  _ ← for_in (layer_indices l2) (layers_body_2 l1 l2 file1 file2) tt;
  (* Check that topcells are the same *)
  let tc1_names := sort (name <$> top_cells l1) in
  let tc2_names := sort (name <$> top_cells l2) in
  _ ← (if negb (bool_decide (tc1_names = tc2_names))
       then raise (GeometryDifference (Msg_topcell tc1_names tc2_names))
       else mret tt);
  let topcell_pairs :=
    (λ tc1_n, (cell l1 tc1_n, cell l2 tc1_n)) <$> tc1_names in
  (* Check that dbu are the same *)
  _ ← (if dbu_differs (dbu l1) (dbu l2)
       then raise (GeometryDifference
                     (Msg_dbu file1 (dbu l1) file2 (dbu l2)))
       else mret tt);
  (* Run the difftool *)
  diff ← for_in topcell_pairs
           (topcell_body l1 tolerance verbose layer_pairs) false;
  if diff : bool
  then raise (GeometryDifference (Msg_differences file1 file2))
  else mret tt.
End kdb.

(** ** The external-process engine: the [klayout] executable *)

(** What the operating system answers when asked to run a command: no such
    executable (the [errno] and [strerror] of the [OSError]), or the
    process ran and ended with a return code and its output. *)
Inductive proc_result : Type :=
| Proc_not_found (errno : Z) (strerror : string)
| Proc_exit (returncode : Z) (output : string).

(** [s.split(sep)] for a one-character separator. *)
Fixpoint split (sep : ascii) (s : string) : list string :=
  match s with
  | EmptyString => [EmptyString]
  | String c s' =>
      if Ascii.eqb c sep then EmptyString :: split sep s'
      else match split sep s' with
           | w :: ws => String c w :: ws
           | [] => [String c EmptyString]
           end
  end.

(** [s.endswith(c)] and [s.startswith(c)] for one character. *)
Fixpoint endswith (s : string) (c : ascii) : bool :=
  match s with
  | EmptyString => false
  | String a EmptyString => Ascii.eqb a c
  | String _ s' => endswith s' c
  end.

Definition startswith (s : string) (c : ascii) : bool :=
  match s with
  | String a _ => Ascii.eqb a c
  | EmptyString => false
  end.

(** [os.path.join(a, b)] on POSIX. *)
Definition os_path_join (a b : string) : string :=
  if startswith b "/" then b
  else if String.eqb a "" || endswith a "/" then a +:+ b
  else a +:+ "/" +:+ b.

(** The text appended to the launch failure (line 93). *)
Definition alias_hint : string :=
  String "010" "You need to alias klayout. See README for instructions".

Section pya.
(** The operating system's process launcher. *)
Variable launch : list string → proc_result.
(** [os.path.realpath(os.path.dirname(__file__))] *)
Variable module_dir : string.

(** [subprocess.check_output(args)] *)
Definition check_output (args : list string) : py string :=
  match launch args with
  | Proc_not_found errno strerror =>
      raise (FileNotFoundError [PyInt errno; PyStr strerror])
  | Proc_exit rc out =>
      if (rc =? 0)%Z then mret out else raise (CalledProcessError rc args)
  end.

(** The argument vector of lines 86-91. *)
Definition pya_call (file1 file2 : string) (tolerance : Z) : list string :=
  let call := ["klayout -b"] in
  let call := call ++ ["-rd a=" +:+ file1] in
  let call := call ++ ["-rd b=" +:+ file2] in
  let call := call ++ ["-rd tol=" +:+ py_str (PyInt tolerance)] in
  let call := call ++ ["-r " +:+ os_path_join module_dir "run_xor.rb"] in
  split " " (String.concat " " call).

Definition run_xor_pya (file1 file2 : string) (tolerance : Z)
    (verbose : bool) : py unit :=
  try_except
    (_ ← check_output (pya_call file1 file2 tolerance); mret tt)
    (λ err,
       match err with
       | FileNotFoundError args =>
           Some match args with
                | a0 :: _ =>
                    raise (FileNotFoundError
                             [PyStr (py_str a0 +:+ alias_hint)])
                | [] => raise IndexError
                end
       | CalledProcessError _ _ =>
           Some (_ ← print (Line_exn err);
                 raise (GeometryDifference (Msg_differences file1 file2)))
       | _ => None
       end).
End pya.

(** ** The polygon-boolean engine: [phidl] and [gdspy] *)

(** A layer specification [(layer, datatype)], the keys of
    [get_polygons(by_spec=True)]. *)
Abbreviation spec := (Z * Z)%type.

(** The literal [0.001]: the binary64 number nearest to it. *)
Definition xor_precision : float := 0x1.0624dd2f1a9fcp-10%float.

Section phidl.
Context {Polygon : Type}.

(** [gdspy.fast_boolean(operandA, operandB, operation, precision,
    max_points, layer, datatype)]: [None], or the polygons of the
    resulting set. *)
Variable fast_boolean :
  list Polygon → list Polygon → string → float → Z → Z → Z →
  option (list Polygon).

(** [pg.import_gds(file).get_polygons(by_spec=True)]: the polygons of
    the imported device by layer specification, or what the import
    raises. *)
Variable import_gds : string → outcome (gmap spec (list Polygon)).

(** One turn of the loop over [all_layers] (lines 117-126); [D] is the
    list [D.elements].  The last case cannot be reached: a member of
    [all_layers] is a key of [A_polys] or of [B_polys]. *)
Definition xor_layer (A_polys B_polys : gmap spec (list Polygon))
    (D : list (Polygon * spec)) (layer : spec) : list (Polygon * spec) :=
  let p :=
    match A_polys !! layer, B_polys !! layer with
    | Some a, Some b =>
        fast_boolean a b "xor" xor_precision 4000 layer.1 layer.2
    | Some a, None => Some a
    | None, Some b => Some b
    | None, None => None
    end in
  match p with
  | Some ps => D ++ ((λ q, (q, layer)) <$> ps)
  | None => D
  end.

(** The elements of the device [xor_polygons_phidl] returns.  A Python
    [set] is walked in an order of its own; [elements] fixes one. *)
Definition xor_polygons_phidl (A_polys B_polys : gmap spec (list Polygon))
    : list (Polygon * spec) :=
  let A_layers : gset spec := dom A_polys in
  let B_layers : gset spec := dom B_polys in
  let all_layers : gset spec := (∅ ∪ A_layers) ∪ B_layers in
  foldl (xor_layer A_polys B_polys) [] (elements all_layers).

Definition run_xor_phidl (file1 file2 : string) (tolerance : Z)
    (verbose : bool) : py unit :=
  TOP1 ← lift (import_gds file1);
  TOP2 ← lift (import_gds file2);
  let XOR := xor_polygons_phidl TOP1 TOP2 in
  if (0 <? length XOR)%nat
  then raise (GeometryDifference (Msg_differences file1 file2))
  else mret tt.
End phidl.

(** ** Choosing the engine when the module is imported *)

(** The environment the process starts in: which modules can be imported,
    and whether a [klayout] executable is on the path. *)
Record environment : Type := mkEnvironment {
  has_klayout_db : bool;
  has_phidl : bool;
  has_gdspy : bool;
  has_phidl_geometry : bool;
  klayout_on_path : bool;
}.

(** The two module-level flags. *)
Record flags : Type := mkFlags { using_phidl : bool; using_macros : bool }.

(** [import m] *)
Definition import (available : bool) (module : string) : py unit :=
  if available then mret tt else raise (ImportError module).

(** Lines 5-15: the nested [try]/[except ImportError]. *)
Definition probe (env : environment) : py flags :=
  let start := mkFlags false false in
  try_except
    (_ ← import (has_klayout_db env) "klayout.db"; mret start)
    (λ e, match e with
          | ImportError _ =>
              Some (try_except
                      (_ ← import (has_phidl env) "phidl";
                       _ ← import (has_gdspy env) "gdspy";
                       _ ← import (has_phidl_geometry env) "phidl.geometry";
                       mret (mkFlags true (using_macros start)))
                      (λ e, match e with
                            | ImportError _ =>
                                Some (mret (mkFlags (using_phidl start) true))
                            | _ => None
                            end))
          | _ => None
          end).

(** The function the name [run_xor] denotes once the module is loaded. *)
Inductive backend : Type :=
| The_run_xor
| The_run_xor_pya
| The_run_xor_phidl.

Global Instance backend_eq_dec : EqDecision backend.
Proof. solve_decision. Defined.

(** Lines 22, 100-101 and 138-139: [def run_xor], then the two
    conditional rebindings, in this order. *)
Definition bind_run_xor (f : flags) : backend :=
  let run_xor := The_run_xor in
  let run_xor := if using_macros f then The_run_xor_pya else run_xor in
  let run_xor := if using_phidl f then The_run_xor_phidl else run_xor in
  run_xor.

(** Importing [kdb_xor]: the probe, then the bindings. *)
Definition load_module (env : environment) : py backend :=
  f ← probe env; mret (bind_run_xor f).

(** The selection the specification describes, for comparison with
    [load_module]: (a) the in-process library, (b) the external tool,
    (c) the polygon-boolean pair, and an error when none is there. *)
Definition spec_select (env : environment) : option backend :=
  if has_klayout_db env then Some The_run_xor
  else if klayout_on_path env then Some The_run_xor_pya
  else if has_phidl env && has_gdspy env && has_phidl_geometry env
       then Some The_run_xor_phidl
  else None.

Section module.
Context {Region : Type} `{!RegionOps Region} {Polygon : Type}.
Variable kdb_read : string → outcome (Layout Region).
Variable launch : list string → proc_result.
Variable module_dir : string.
Variable fast_boolean :
  list Polygon → list Polygon → string → float → Z → Z → Z →
  option (list Polygon).
Variable import_gds : string → outcome (gmap spec (list Polygon)).

(** A call of the module's [run_xor] under a binding. *)
Definition call_run_xor (b : backend) (file1 file2 : string)
    (tolerance : Z) (verbose : bool) : py unit :=
  match b with
  | The_run_xor => run_xor kdb_read file1 file2 tolerance verbose
  | The_run_xor_pya =>
      run_xor_pya launch module_dir file1 file2 tolerance verbose
  | The_run_xor_phidl =>
      run_xor_phidl fast_boolean import_gds file1 file2 tolerance verbose
  end.

(** The command line (lines 164-168); the result is the exit status. *)
Definition main (b : backend) (file1 file2 : string) (tol : Z)
    (verbose : bool) : py Z :=
  try_except
    (_ ← call_run_xor b file1 file2 tol verbose; mret 0%Z)
    (λ err, match err with
            | GeometryDifference _ =>
                Some (_ ← print (Line_exn err); mret 1%Z)
            | _ => None
            end).
End module.

(** ** Vocabulary for the statements *)

(** The [LayerInfo]s of a layout, in index order. *)
Definition layer_infos {Region : Type} (l : Layout Region) : list LayerInfo :=
  get_info l <$> layer_indices l.

(** The first layer of [la] that [lb] has no layer for. *)
Definition first_missing {Region : Type} (la lb : Layout Region)
    : option LayerInfo :=
  List.find (λ li, bool_decide (find_layer lb li = None)) (layer_infos la).

(** The layer pairs the first loop collects when nothing is missing. *)
Definition matched_layers {Region : Type} (l1 l2 : Layout Region)
    : list (nat * nat) :=
  omap (λ ll1, (λ ll2, (ll1, ll2)) <$> find_layer l2 (get_info l1 ll1))
       (layer_indices l1).

(** The sorted top-cell names of a layout. *)
Definition topcell_names {Region : Type} (l : Layout Region) : list string :=
  sort (name <$> top_cells l).

(** The top-cell pairs of the same name, in sorted order of the names. *)
Definition matched_topcells {Region : Type} (l1 l2 : Layout Region)
    : list (Cell Region * Cell Region) :=
  omap (λ n, c1 ← cell l1 n; c2 ← cell l2 n; Some (c1, c2))
       (topcell_names l1).

(** The three structural checks, as conditions on the two layouts. *)
Definition layers_agree {Region : Type} (l1 l2 : Layout Region) : Prop :=
  first_missing l1 l2 = None ∧ first_missing l2 l1 = None.

(** The same as sets of layers: each contains the other. *)
Definition same_layer_set {Region : Type} (l1 l2 : Layout Region) : Prop :=
  layer_infos l1 ⊆ layer_infos l2 ∧ layer_infos l2 ⊆ layer_infos l1.

Definition topcells_agree {Region : Type} (l1 l2 : Layout Region) : Prop :=
  topcell_names l1 = topcell_names l2.

Definition structure_agrees {Region : Type} (l1 l2 : Layout Region) : Prop :=
  layers_agree l1 l2 ∧ topcells_agree l1 l2 ∧
  dbu_differs (dbu l1) (dbu l2) = false.

(** No two layers of the layout carry the same [LayerInfo]; a layout read
    from a GDS or OASIS file is so. *)
Definition layers_distinct {Region : Type} (l : Layout Region) : Prop :=
  NoDup (layer_infos l).

(** No two top cells of the layout have the same name; the cells of a
    [kdb.Layout] are so. *)
Definition topcells_distinct {Region : Type} (l : Layout Region) : Prop :=
  NoDup (name <$> top_cells l).

Section difftool_vocabulary.
Context {Region : Type} `{!RegionOps Region}.

(** The XOR of one (cell, layer) pair after the erosion step. *)
Definition eroded_xor (tolerance : Z) (tcs : Cell Region * Cell Region)
    (lp : nat * nat) : Region :=
  let rxor := region_xor (begin_shapes_rec tcs.1 lp.1)
                         (begin_shapes_rec tcs.2 lp.2) in
  if (0 <? tolerance)%Z then region_size rxor (- tolerance) else rxor.

(** The pair's result: is the eroded XOR non-empty? *)
Definition pair_differs (tolerance : Z)
    (p : (Cell Region * Cell Region) * (nat * nat)) : bool :=
  negb (region_is_empty (eroded_xor tolerance p.1 p.2)).

(** What one pair leaves in the event log. *)
Definition pair_events (l1 : Layout Region) (tolerance : Z) (verbose : bool)
    (p : (Cell Region * Cell Region) * (nat * nat)) : list event :=
  let rxor := eroded_xor tolerance p.1 p.2 in
  Ev_xor (name p.1.1) p.2.1 p.2.2 ::
  (if verbose
   then [Ev_print
           (if pair_differs tolerance p
            then Line_differences (region_count rxor) (name p.1.1)
                   (get_info l1 p.2.1)
            else Line_no_differences (name p.1.1) (get_info l1 p.2.1))]
   else []).
End difftool_vocabulary.

(** The exception a run ends with, if any. *)
Definition raised {A : Type} (c : py A) : option exn :=
  match c.2 with
  | Raise e => Some e
  | Return _ => None
  end.

(** Is this the text of one of the three structural checks? *)
Definition is_structural (m : message) : bool :=
  match m with
  | Msg_layer _ _ _ | Msg_topcell _ _ | Msg_dbu _ _ _ _ => true
  | Msg_differences _ _ => false
  end.

Section phidl_vocabulary.
Context {Polygon : Type}.
Variable fast_boolean :
  list Polygon → list Polygon → string → float → Z → Z → Z →
  option (list Polygon).

(** The value of [p] for one layer specification: the boolean XOR where
    both devices have the layer, the polygons of the one that has it
    otherwise. *)
Definition layer_result (A_polys B_polys : gmap spec (list Polygon))
    (layer : spec) : option (list Polygon) :=
  match A_polys !! layer, B_polys !! layer with
  | Some a, Some b =>
      fast_boolean a b "xor" xor_precision 4000 layer.1 layer.2
  | Some a, None => Some a
  | None, Some b => Some b
  | None, None => None
  end.

(** The elements one layer specification adds to the result. *)
Definition layer_elements (A_polys B_polys : gmap spec (list Polygon))
    (layer : spec) : list (Polygon * spec) :=
  match layer_result A_polys B_polys layer with
  | Some ps => (λ q, (q, layer)) <$> ps
  | None => []
  end.
End phidl_vocabulary.

(** ** A concrete engine: regions as sets of unit pixels

    A region is the finite set of the unit squares it covers, each named
    by its lower-left corner.  XOR is symmetric difference; sizing by a
    negative [d] keeps the pixels whose whole [(2|d|+1)]-square lies in
    the region, sizing by a positive [d] covers those squares.  Sizing by
    -2^31, the one coordinate whose negation is no coordinate, leaves the
    region as it is.  The polygons of a region are its maximal sets of
    unit squares joined through an edge or a corner. *)
Abbreviation pixels := (gset (Z * Z)).

Definition square (p : Z * Z) (d : Z) : list (Z * Z) :=
  x ← seqZ (p.1 - d) (2 * d + 1); y ← seqZ (p.2 - d) (2 * d + 1); [(x, y)].

Definition pixel_size (r : pixels) (d : Z) : pixels :=
  if (d =? coord_min)%Z then r
  else if (d <? 0)%Z
  then filter (λ p, Forall (λ q, q ∈ r) (square p (- d))) r
  else list_to_set (p ← elements r; square p d).

(** Two unit squares that share an edge or a corner (or are the same). *)
Definition touches (p q : Z * Z) : bool :=
  (Z.abs (p.1 - q.1) <=? 1)%Z && (Z.abs (p.2 - q.2) <=? 1)%Z.

(** [s] with the squares of [r] that touch it. *)
Definition grow (r s : pixels) : pixels :=
  s ∪ filter (λ q, Exists (λ p, touches p q = true) (elements s)) r.

Fixpoint grow_n (n : nat) (r s : pixels) : pixels :=
  match n with
  | O => s
  | S n' => grow_n n' r (grow r s)
  end.

(** The number of polygons: take a square, set its polygon aside, go on. *)
Fixpoint count_polygons (fuel : nat) (r : pixels) : nat :=
  match fuel with
  | O => 0
  | S fuel' =>
      match elements r with
      | [] => 0
      | p :: _ => S (count_polygons fuel' (r ∖ grow_n (size r) r {[p]}))
      end
  end.

Global Instance pixel_ops : RegionOps pixels := {|
  region_xor a b := (a ∖ b) ∪ (b ∖ a);
  region_size := pixel_size;
  region_is_empty r := bool_decide (r = ∅);
  region_count r := count_polygons (size r) r;
|}.

(** A [w] by [h] box with its lower-left corner at [(x0, y0)]. *)
Definition box (x0 y0 w h : Z) : pixels :=
  list_to_set (x ← seqZ x0 w; y ← seqZ y0 h; [(x, y)]).

(** Sample layouts, after [examples/klayout/pyalib.py]: layers 1/0 and
    2/0, one top cell, a box on the first layer. *)
Definition two_layers (i : nat) : LayerInfo :=
  match i with
  | 0%nat => mkLayerInfo 1 0
  | _ => mkLayerInfo 2 0
  end.

Definition boxy (shapes : pixels) : Cell pixels :=
  mkCell "TOP" (λ ll, match ll with 0%nat => shapes | _ => ∅ end).

Local Set Warnings "-inexact-float".

(** The reference: a 5 by 3 box, database unit 0.001. *)
Definition layout_ref : Layout pixels :=
  mkLayout 0.001%float [0; 1]%nat two_layers [boxy (box 0 0 5 3)].

(** The reference with one more unit square, away from the box. *)
Definition layout_speck : Layout pixels :=
  mkLayout 0.001%float [0; 1]%nat two_layers
           [boxy (box 0 0 5 3 ∪ box 10 10 1 1)].

(** The reference with a box one unit wider. *)
Definition layout_wide : Layout pixels :=
  mkLayout 0.001%float [0; 1]%nat two_layers [boxy (box 0 0 6 3)].

(** The reference without its second layer. *)
Definition layout_one_layer : Layout pixels :=
  mkLayout 0.001%float [0]%nat two_layers [boxy (box 0 0 5 3)].

(** The reference with a database unit larger by 1e-5. *)
Definition layout_coarse : Layout pixels :=
  mkLayout 0.00101%float [0; 1]%nat two_layers [boxy (box 0 0 5 3)].

(** A directory of layout files. *)
Definition sample_disk (file : string) : outcome (Layout pixels) :=
  if String.eqb file "ref.gds" then Return layout_ref
  else if String.eqb file "copy.gds" then Return layout_ref
  else if String.eqb file "speck.gds" then Return layout_speck
  else if String.eqb file "wide.gds" then Return layout_wide
  else if String.eqb file "one_layer.gds" then Return layout_one_layer
  else if String.eqb file "coarse.gds" then Return layout_coarse
  else Raise (LibraryError "kdb.Layout.read").

(** Modelled from the spec: "[xor(A, B) == xor(B, A)] (commutativity) for
    any two Regions on the same layer/cell"; [klayout.db] itself is not in
    the repository. *)
Class RegionXorComm (Region : Type) `{!RegionOps Region} : Prop :=
  xor_comm : ∀ a b : Region, region_xor a b = region_xor b a.

(** The line a verbose run prints for one pair of the product. *)
Definition verbose_line {Region : Type} `{!RegionOps Region}
    (l1 : Layout Region) (tolerance : Z)
    (p : (Cell Region * Cell Region) * (nat * nat)) : line :=
  if pair_differs tolerance p
  then Line_differences (region_count (eroded_xor tolerance p.1 p.2))
         (name p.1.1) (get_info l1 p.2.1)
  else Line_no_differences (name p.1.1) (get_info l1 p.2.1).

(** How often a character occurs in a string. *)
Fixpoint count_char (c : ascii) (s : string) : nat :=
  match s with
  | EmptyString => 0
  | String a s' => (if Ascii.eqb a c then 1 else 0) + count_char c s'
  end.

(** Does the boolean yield at least one polygon? *)
Definition has_polygons {Polygon : Type} (p : option (list Polygon)) : bool :=
  match p with
  | Some (_ :: _) => true
  | _ => false
  end.

(** The reference and a neighbour, as [phidl] sees them: polygons are
    named by numbers here, and the boolean is a plain list difference. *)
Definition sample_boolean (a b : list nat) (operation : string)
    (precision : float) (max_points layer datatype : Z) : option (list nat) :=
  let d := list_difference a b ++ list_difference b a in
  if bool_decide (d = []) then None else Some d.

Definition sample_gds (file : string) : outcome (gmap spec (list nat)) :=
  if String.eqb file "ref.gds" then Return {[ (1, 0)%Z := [7%nat] ]}
  else if String.eqb file "more.gds"
       then Return {[ (1, 0)%Z := [7%nat]; (2, 0)%Z := [8%nat] ]}
  else Raise (LibraryError "pg.import_gds").

(** A machine without a [klayout] executable, and one whose [klayout]
    reports a difference. *)
Definition no_klayout (args : list string) : proc_result :=
  Proc_not_found 2 "No such file or directory: 'klayout'".

Definition klayout_says_differ (args : list string) : proc_result :=
  Proc_exit 1 "".

Definition env_phidl_and_tool : environment :=
  mkEnvironment false true true true true.

(** The reference with its top cell under another name. *)
Definition layout_other_top : Layout pixels :=
  mkLayout 0.001%float [0; 1]%nat two_layers
           [mkCell "OTHER" (λ ll, match ll with
                                  | 0%nat => box 0 0 5 3
                                  | _ => ∅
                                  end)].

(** The directory with one more file. *)
Definition sample_disk_more (file : string) : outcome (Layout pixels) :=
  if String.eqb file "other_top.gds" then Return layout_other_top
  else sample_disk file.

(** The [phidl] directory with a copy of the reference. *)
Definition sample_gds_more (file : string) : outcome (gmap spec (list nat)) :=
  if String.eqb file "copy.gds" then Return {[ (1, 0)%Z := [7%nat] ]}
  else sample_gds file.

(** The tolerances for which line 69 hands [Region.size] a coordinate:
    those of at most 2^31, the non-positive ones (no call) included. *)
Definition tolerance_ok (tolerance : Z) : bool :=
  (tolerance <=? - coord_min)%Z.

(** The two nested loops over the pairs of the Cartesian product.  For a
    tolerance out of range the first pair's [size] call ends them. *)
Definition difftool_outline {Region : Type} `{!RegionOps Region}
    (l1 : Layout Region) (file1 file2 : string) (tolerance : Z)
    (verbose : bool)
    (pairs : list ((Cell Region * Cell Region) * (nat * nat))) : py unit :=
  if tolerance_ok tolerance
  then (concat (pair_events l1 tolerance verbose <$> pairs),
        if existsb (pair_differs tolerance) pairs
        then Raise (GeometryDifference (Msg_differences file1 file2))
        else Return tt)
  else match pairs with
       | [] => ([], Return tt)
       | p :: _ => ([Ev_xor (name p.1.1) p.2.1 p.2.2],
                    Raise (TypeError "Region.size"))
       end.

(** What [run_xor] does once both files are read, stage by stage: the
    first failing structural check decides, and otherwise the pairs of
    the Cartesian product do. *)
Definition run_xor_outline {Region : Type} `{!RegionOps Region}
    (l1 l2 : Layout Region) (file1 file2 : string) (tolerance : Z)
    (verbose : bool) : py unit :=
  match first_missing l1 l2 with
  | Some li => ([], Raise (GeometryDifference (Msg_layer li file1 file2)))
  | None =>
  match first_missing l2 l1 with
  | Some li => ([], Raise (GeometryDifference (Msg_layer li file2 file1)))
  | None =>
  if negb (bool_decide (topcell_names l1 = topcell_names l2))
  then ([], Raise (GeometryDifference
                     (Msg_topcell (topcell_names l1) (topcell_names l2))))
  else if dbu_differs (dbu l1) (dbu l2)
  then ([], Raise (GeometryDifference
                     (Msg_dbu file1 (dbu l1) file2 (dbu l2))))
  else
    difftool_outline l1 file1 file2 tolerance verbose
      (list_prod (matched_topcells l1 l2) (matched_layers l1 l2))
  end end.

(** * Properties *)

(** ** The effect monad *)

Lemma bind_return {A B : Type} (f : A → py B) (a : A) :
  (([], Return a) : py A) ≫= f = f a.
Proof. unfold mbind, py_mbind, py_bind. by destruct (f a). Qed.

Lemma bind_mret {A B : Type} (f : A → py B) (a : A) : mret a ≫= f = f a.
Proof. apply bind_return. Qed.

Lemma bind_raise {A B : Type} (f : A → py B) (ev : list event) (e : exn) :
  ((ev, Raise e) : py A) ≫= f = (ev, Raise e).
Proof. reflexivity. Qed.

Lemma bind_events {A B : Type} (f : A → py B) (ev : list event) (a : A) :
  ((ev, Return a) : py A) ≫= f = (ev ++ (f a).1, (f a).2).
Proof. unfold mbind, py_mbind, py_bind. by destruct (f a). Qed.

Lemma for_in_nil {A S : Type} (body : A → S → py S) (s : S) :
  for_in [] body s = ([], Return s).
Proof. reflexivity. Qed.

Lemma for_in_cons {A S : Type} (body : A → S → py S) (x : A) (xs : list A)
    (s : S) :
  for_in (x :: xs) body s = body x s ≫= for_in xs body.
Proof. reflexivity. Qed.

(** ** The layer-set check *)

Section layers.
Context {Region : Type} `{!RegionOps Region}.
Implicit Types l la lb : Layout Region.

Lemma find_layer_None l (li : LayerInfo) :
  find_layer l li = None ↔ li ∉ layer_infos l.
Proof.
  unfold find_layer, layer_infos. split.
  - intros Hf Hin. apply list_elem_of_fmap in Hin as (i & -> & Hi).
    apply list_elem_of_In in Hi.
    pose proof (find_none _ _ Hf i Hi) as Hb. simpl in Hb.
    by rewrite bool_decide_eq_false in Hb.
  - intros Hnot. destruct (List.find _ _) as [i|] eqn:Hf; [|done].
    apply find_some in Hf as [Hi Hb]. apply bool_decide_eq_true in Hb.
    exfalso. apply Hnot. rewrite <- Hb. apply list_elem_of_fmap.
    exists i. split; [done|]. by apply list_elem_of_In.
Qed.

Lemma first_missing_Some la lb (li : LayerInfo) :
  first_missing la lb = Some li →
  li ∈ layer_infos la ∧ li ∉ layer_infos lb.
Proof.
  unfold first_missing. intros Hf. apply find_some in Hf as [Hi Hb].
  apply bool_decide_eq_true in Hb. split.
  - by apply list_elem_of_In.
  - by apply find_layer_None.
Qed.

Lemma first_missing_None la lb :
  first_missing la lb = None ↔ layer_infos la ⊆ layer_infos lb.
Proof.
  unfold first_missing. split.
  - intros Hf li Hli. apply list_elem_of_In in Hli.
    pose proof (find_none _ _ Hf li Hli) as Hb. simpl in Hb.
    apply bool_decide_eq_false in Hb.
    destruct (decide (li ∈ layer_infos lb)) as [|Hn]; [done|].
    by apply find_layer_None in Hn.
  - intros Hsub. destruct (List.find _ _) as [li|] eqn:Hf; [|done].
    apply first_missing_Some in Hf as [Hin Hnot]. by apply Hsub in Hin.
Qed.

(** The first loop: it stops at the first layer of [l1] that [l2] lacks,
    and otherwise collects the matched pairs. *)
Lemma layers_loop_1 l1 l2 (file1 file2 : string) (idxs : list nat)
    (acc : list (nat * nat)) :
  for_in idxs (layers_body_1 l1 l2 file1 file2) acc =
  match List.find (λ li, bool_decide (find_layer l2 li = None))
                  (get_info l1 <$> idxs) with
  | Some li => ([], Raise (GeometryDifference (Msg_layer li file1 file2)))
  | None =>
      ([], Return (acc ++ omap (λ ll1, (λ ll2, (ll1, ll2)) <$>
                                  find_layer l2 (get_info l1 ll1)) idxs))
  end.
Proof.
  revert acc. induction idxs as [|i idxs IH]; intros acc.
  - by rewrite for_in_nil, app_nil_r.
  - rewrite for_in_cons, fmap_cons.
    set (rest := for_in idxs _) in *. unfold layers_body_1.
    cbn [List.find omap list_omap].
    destruct (find_layer l2 (get_info l1 i)) as [ll2|] eqn:Hf.
    + rewrite bind_mret, bool_decide_eq_false_2 by done.
      unfold rest. rewrite IH. cbn [fmap option_fmap option_map].
      destruct (List.find _ _); [done|]. by rewrite <- app_assoc.
    + by rewrite bool_decide_eq_true_2.
Qed.

(** The second loop: it stops at the first layer of [l2] that [l1]
    lacks. *)
Lemma layers_loop_2 l1 l2 (file1 file2 : string) (idxs : list nat) :
  for_in idxs (layers_body_2 l1 l2 file1 file2) tt =
  match List.find (λ li, bool_decide (find_layer l1 li = None))
                  (get_info l2 <$> idxs) with
  | Some li => ([], Raise (GeometryDifference (Msg_layer li file2 file1)))
  | None => ([], Return tt)
  end.
Proof.
  induction idxs as [|i idxs IH]; [done|].
  rewrite for_in_cons, fmap_cons.
  set (rest := for_in idxs _) in *. unfold layers_body_2. cbn [List.find].
  destruct (find_layer l1 (get_info l2 i)) as [ll1|] eqn:Hf.
  - rewrite bind_mret, bool_decide_eq_false_2 by done. by unfold rest.
  - by rewrite bool_decide_eq_true_2.
Qed.
End layers.

(** ** The top-cell check *)

Section topcells.
Context {Region : Type}.
Implicit Types l : Layout Region.

Lemma cell_of_name l (n : string) :
  n ∈ name <$> top_cells l → is_Some (cell l n).
Proof.
  unfold cell. induction (top_cells l) as [|c cs IH]; intros Hin.
  - by apply elem_of_nil in Hin.
  - cbn [List.find]. destruct (String.eqb (name c) n) eqn:Heq; [by eexists|].
    apply IH. rewrite fmap_cons in Hin.
    apply elem_of_cons in Hin as [->|Hin]; [|done].
    by rewrite String.eqb_refl in Heq.
Qed.

Lemma topcell_names_elem l (n : string) :
  n ∈ topcell_names l ↔ n ∈ name <$> top_cells l.
Proof. unfold topcell_names, sort. by rewrite merge_sort_Permutation. Qed.

(** When the sorted names agree, every name finds its cell on both
    sides: the list of pairs line 53 builds holds no [None]. *)
Lemma topcell_pairs_matched (l1 l2 : Layout Region) :
  topcells_agree l1 l2 →
  (λ tc1_n, (cell l1 tc1_n, cell l2 tc1_n)) <$> topcell_names l1 =
  (λ p, (Some p.1, Some p.2)) <$> matched_topcells l1 l2.
Proof.
  intros Hagree. unfold matched_topcells.
  assert (Hall : ∀ n, n ∈ topcell_names l1 →
                      is_Some (cell l1 n) ∧ is_Some (cell l2 n)).
  { intros n Hn. split; apply cell_of_name, topcell_names_elem; [done|].
    by rewrite <- Hagree. }
  induction (topcell_names l1) as [|n ns IH]; [done|].
  destruct (Hall n) as [[c1 H1] [c2 H2]]; [left|].
  rewrite fmap_cons. cbn [omap list_omap]. rewrite H1, H2. cbn.
  f_equal. apply IH. intros m Hm. apply Hall. by right.
Qed.

Lemma matched_topcells_names (l1 l2 : Layout Region) :
  topcells_agree l1 l2 →
  (λ p, name p.1) <$> matched_topcells l1 l2 = topcell_names l1.
Proof.
  intros Hagree.
  assert (Hfst : ∀ n c, cell l1 n = Some c → name c = n).
  { intros n c Hc. unfold cell in Hc. apply find_some in Hc as [_ Hc].
    by apply String.eqb_eq in Hc. }
  pose proof (topcell_pairs_matched l1 l2 Hagree) as Hp.
  apply (f_equal (fmap (λ q : option (Cell Region) * option (Cell Region),
                          q.1))) in Hp.
  rewrite <- !list_fmap_compose in Hp.
  revert Hp. generalize (matched_topcells l1 l2).
  induction (topcell_names l1) as [|n ns IH]; intros [|p ps] Hp;
    try discriminate Hp; [done|].
  rewrite !fmap_cons in Hp. injection Hp as Hc Hp. rewrite fmap_cons.
  f_equal; [by apply Hfst | by apply IH].
Qed.
End topcells.

(** ** The difftool loops *)

Section difftool.
Context {Region : Type} `{!RegionOps Region}.

Lemma tolerance_ok_le (tolerance : Z) :
  tolerance_ok tolerance = true ↔ (tolerance ≤ 2147483648)%Z.
Proof. unfold tolerance_ok, coord_min. by rewrite Z.leb_le. Qed.

(** Within the range the [size] call of line 69 is the engine's sizing. *)
Lemma size_call_in_range (tolerance : Z) (r : Region) :
  tolerance_ok tolerance = true → (0 <? tolerance)%Z = true →
  size_call r (- tolerance) = Return (region_size r (- tolerance)).
Proof.
  intros Hok Hpos. apply tolerance_ok_le in Hok. apply Z.ltb_lt in Hpos.
  unfold size_call, is_coord, coord_min, coord_max.
  rewrite (proj2 (Z.leb_le _ _)), (proj2 (Z.leb_le _ _)) by lia. done.
Qed.

(** Beyond it the tolerance is positive and the call raises. *)
Lemma size_call_out_of_range (tolerance : Z) (r : Region) :
  tolerance_ok tolerance = false →
  (0 <? tolerance)%Z = true ∧
  size_call r (- tolerance) = Raise (TypeError "Region.size").
Proof.
  intros Hok. apply not_true_iff_false in Hok. rewrite tolerance_ok_le in Hok.
  split; [apply Z.ltb_lt; lia|].
  unfold size_call, is_coord, coord_min.
  by rewrite (proj2 (Z.leb_gt _ _)) by lia.
Qed.

(** One turn of the inner loop on two cells that exist. *)
Lemma xor_body_pair (l1 : Layout Region) (tolerance : Z) (verbose : bool)
    (c1 c2 : Cell Region) (lp : nat * nat) (diff : bool) :
  tolerance_ok tolerance = true →
  xor_body l1 tolerance verbose (Some c1) (Some c2) lp diff =
  (pair_events l1 tolerance verbose ((c1, c2), lp),
   Return (pair_differs tolerance ((c1, c2), lp) || diff)).
Proof.
  intros Hok. destruct lp as [ll1 ll2].
  unfold xor_body, attr, pair_events, pair_differs, eroded_xor.
  rewrite !bind_mret. unfold note_xor. rewrite bind_events. cbn [fst snd].
  destruct (0 <? tolerance)%Z eqn:Hpos.
  - rewrite (size_call_in_range _ _ Hok Hpos). unfold lift.
    rewrite bind_return.
    destruct (negb (region_is_empty _)) eqn:Hd; destruct verbose;
      unfold print; rewrite ?bind_events, ?bind_mret; reflexivity.
  - rewrite bind_mret.
    destruct (negb (region_is_empty _)) eqn:Hd; destruct verbose;
      unfold print; rewrite ?bind_events, ?bind_mret; reflexivity.
Qed.

(** One turn of the inner loop when the tolerance is out of range: the
    XOR is computed, the [size] call raises. *)
Lemma xor_body_out_of_range (l1 : Layout Region) (tolerance : Z)
    (verbose : bool) (c1 c2 : Cell Region) (lp : nat * nat) (diff : bool) :
  tolerance_ok tolerance = false →
  xor_body l1 tolerance verbose (Some c1) (Some c2) lp diff =
  ([Ev_xor (name c1) lp.1 lp.2], Raise (TypeError "Region.size")).
Proof.
  intros Hok. destruct lp as [ll1 ll2].
  unfold xor_body, attr. rewrite !bind_mret. unfold note_xor.
  rewrite bind_events. cbn [fst snd].
  destruct (size_call_out_of_range tolerance
              (region_xor (begin_shapes_rec c1 ll1) (begin_shapes_rec c2 ll2))
              Hok) as [-> ->].
  done.
Qed.

(** The inner loop: every layer pair is looked at, and the flag ends as
    the disjunction of the pairs' results with its value on entry. *)
Lemma layer_loop (l1 : Layout Region) (tolerance : Z) (verbose : bool)
    (c1 c2 : Cell Region) (lps : list (nat * nat)) (diff : bool) :
  tolerance_ok tolerance = true →
  for_in lps (xor_body l1 tolerance verbose (Some c1) (Some c2)) diff =
  (concat (pair_events l1 tolerance verbose <$> (pair (c1, c2) <$> lps)),
   Return (existsb (pair_differs tolerance) (pair (c1, c2) <$> lps) || diff)).
Proof.
  intros Hok. revert diff. induction lps as [|lp lps IH]; intros diff; [done|].
  rewrite for_in_cons, xor_body_pair, bind_events by done. cbn [fst snd].
  rewrite IH, !fmap_cons. cbn [concat existsb fst snd].
  by rewrite orb_assoc, (orb_comm (existsb _ _)).
Qed.

(** The outer loop over the top-cell pairs: the Cartesian product, cell
    by cell and layer by layer within a cell. *)
Lemma topcell_loop (l1 : Layout Region) (tolerance : Z) (verbose : bool)
    (tcs : list (Cell Region * Cell Region)) (lps : list (nat * nat))
    (diff : bool) :
  tolerance_ok tolerance = true →
  for_in ((λ p, (Some p.1, Some p.2)) <$> tcs)
         (topcell_body l1 tolerance verbose lps) diff =
  (concat (pair_events l1 tolerance verbose <$> list_prod tcs lps),
   Return (existsb (pair_differs tolerance) (list_prod tcs lps) || diff)).
Proof.
  intros Hok.
  revert diff. induction tcs as [|[c1 c2] tcs IH]; intros diff; [done|].
  change (for_in ((λ p, (Some p.1, Some p.2)) <$> (c1, c2) :: tcs)
            (topcell_body l1 tolerance verbose lps) diff)
    with (for_in lps (xor_body l1 tolerance verbose (Some c1) (Some c2)) diff
          ≫= for_in ((λ p, (Some p.1, Some p.2)) <$> tcs)
                (topcell_body l1 tolerance verbose lps)).
  rewrite layer_loop, bind_events by done. cbn [fst snd list_prod].
  rewrite IH. cbn [fst snd].
  change (map (λ y, (c1, c2, y)) lps) with (pair (c1, c2) <$> lps).
  rewrite fmap_app, concat_app, existsb_app.
  by rewrite orb_assoc, (orb_comm (existsb _ (list_prod _ _))).
Qed.

(** The two loops when the tolerance is out of range: they end on the
    first pair of the product, if there is one. *)
Lemma topcell_loop_out_of_range (l1 : Layout Region) (tolerance : Z)
    (verbose : bool) (tcs : list (Cell Region * Cell Region))
    (lps : list (nat * nat)) (diff : bool) :
  tolerance_ok tolerance = false →
  for_in ((λ p, (Some p.1, Some p.2)) <$> tcs)
         (topcell_body l1 tolerance verbose lps) diff =
  match list_prod tcs lps with
  | [] => ([], Return diff)
  | p :: _ => ([Ev_xor (name p.1.1) p.2.1 p.2.2],
               Raise (TypeError "Region.size"))
  end.
Proof.
  intros Hok. induction tcs as [|[c1 c2] tcs IH]; [done|].
  change (for_in ((λ p, (Some p.1, Some p.2)) <$> (c1, c2) :: tcs)
            (topcell_body l1 tolerance verbose lps) diff)
    with (for_in lps (xor_body l1 tolerance verbose (Some c1) (Some c2)) diff
          ≫= for_in ((λ p, (Some p.1, Some p.2)) <$> tcs)
                (topcell_body l1 tolerance verbose lps)).
  destruct lps as [|lp lps].
  - rewrite for_in_nil, bind_return. exact IH.
  - rewrite for_in_cons, xor_body_out_of_range by done. reflexivity.
Qed.

(** [run_xor] on two readable files is its outline. *)
Lemma run_xor_outline_correct
    (kdb_read : string → outcome (Layout Region))
    (file1 file2 : string) (tolerance : Z) (verbose : bool)
    (l1 l2 : Layout Region) :
  kdb_read file1 = Return l1 → kdb_read file2 = Return l2 →
  run_xor kdb_read file1 file2 tolerance verbose =
  run_xor_outline l1 l2 file1 file2 tolerance verbose.
Proof.
  intros H1 H2. unfold run_xor, run_xor_outline, lift.
  rewrite H1, bind_return, H2, bind_return, layers_loop_1.
  fold (layer_infos l1). fold (first_missing l1 l2).
  destruct (first_missing l1 l2) as [li|]; [done|].
  rewrite bind_return, layers_loop_2.
  fold (layer_infos l2). fold (first_missing l2 l1).
  destruct (first_missing l2 l1) as [li|]; [done|].
  rewrite bind_return. fold (topcell_names l1). fold (topcell_names l2).
  destruct (bool_decide (topcell_names l1 = topcell_names l2)) eqn:Htc;
    cbn [negb]; [|done].
  apply bool_decide_eq_true in Htc. rewrite bind_mret.
  destruct (dbu_differs (dbu l1) (dbu l2)); [done|].
  rewrite bind_mret, (topcell_pairs_matched l1 l2 Htc), app_nil_l.
  fold (matched_layers l1 l2). unfold difftool_outline.
  destruct (tolerance_ok tolerance) eqn:Hok.
  - rewrite topcell_loop, bind_events by done.
    rewrite orb_false_r. cbn [fst snd].
    by destruct (existsb _ _); rewrite app_nil_r.
  - rewrite topcell_loop_out_of_range by done.
    by destruct (list_prod _ _).
Qed.

(** How the two loops can end. *)
Lemma difftool_outline_end (l1 : Layout Region) (file1 file2 : string)
    (tolerance : Z) (verbose : bool)
    (pairs : list ((Cell Region * Cell Region) * (nat * nat))) :
  let r := (difftool_outline l1 file1 file2 tolerance verbose pairs).2 in
  r = Return tt ∨
  r = Raise (GeometryDifference (Msg_differences file1 file2)) ∨
  (r = Raise (TypeError "Region.size") ∧ tolerance_ok tolerance = false).
Proof.
  unfold difftool_outline. destruct (tolerance_ok tolerance); cbn [snd].
  - destruct (existsb _ _); auto.
  - destruct pairs; auto.
Qed.

(** Within the range the loops are the walk over all pairs. *)
Lemma difftool_outline_in_range (l1 : Layout Region) (file1 file2 : string)
    (tolerance : Z) (verbose : bool)
    (pairs : list ((Cell Region * Cell Region) * (nat * nat))) :
  (tolerance ≤ 2147483648)%Z →
  difftool_outline l1 file1 file2 tolerance verbose pairs =
  (concat (pair_events l1 tolerance verbose <$> pairs),
   if existsb (pair_differs tolerance) pairs
   then Raise (GeometryDifference (Msg_differences file1 file2))
   else Return tt).
Proof.
  intros Hle. unfold difftool_outline.
  by rewrite (proj2 (tolerance_ok_le tolerance) Hle).
Qed.
End difftool.

(** ** The database-unit check *)

(** The epsilon as a specification float. *)
Lemma eps_dbu_SF :
  Prim2SF eps_dbu = S754_finite false 4722366482869645%positive (-72)%Z.
Proof. by vm_compute. Qed.

(** A layout's unit never differs from itself, whatever the float. *)
Lemma dbu_differs_same (d : float) : dbu_differs d d = false.
Proof.
  unfold dbu_differs. rewrite ltb_spec, sub_spec, eps_dbu_SF.
  destruct (Prim2SF d) as [s|s| |s m e].
  - by destruct s.
  - by destruct s.
  - done.
  - unfold SF64sub, SFsub. by rewrite Z.sub_diag.
Qed.

(** The check lets every pair through whose absolute difference is within
    the epsilon. *)
Lemma dbu_within_eps_passes (dbu1 dbu2 : float) :
  PrimFloat.leb (PrimFloat.abs (PrimFloat.sub dbu1 dbu2)) eps_dbu = true →
  dbu_differs dbu1 dbu2 = false.
Proof.
  unfold dbu_differs. rewrite leb_spec, abs_spec, ltb_spec, eps_dbu_SF.
  destruct (Prim2SF (dbu1 - dbu2)) as [s|s| |s m e]; try done.
  destruct s; [reflexivity|].
  unfold SFabs, SFleb, SFltb, SFcompare.
  rewrite (Z.compare_antisym e), (Pos.compare_antisym m).
  destruct (e ?= -72)%Z; cbn [CompOpp]; [|reflexivity|discriminate].
  unfold Pos.compare.
  destruct (Pos.compare_cont Eq m _); cbn [CompOpp];
    [reflexivity|reflexivity|discriminate].
Qed.

(** When the layers and top cells agree and the first unit exceeds the
    second by more than the epsilon, the call fails on the unit check. *)
Lemma dbu_check_raises {Region : Type} `{!RegionOps Region}
    (kdb_read : string → outcome (Layout Region))
    (file1 file2 : string) (tolerance : Z) (verbose : bool)
    (l1 l2 : Layout Region) :
  kdb_read file1 = Return l1 → kdb_read file2 = Return l2 →
  layers_agree l1 l2 → topcells_agree l1 l2 →
  dbu_differs (dbu l1) (dbu l2) = true →
  run_xor kdb_read file1 file2 tolerance verbose =
  ([], Raise (GeometryDifference (Msg_dbu file1 (dbu l1) file2 (dbu l2)))).
Proof.
  intros H1 H2 [Ha Hb] Htc Hd.
  rewrite (run_xor_outline_correct _ _ _ _ _ _ _ H1 H2). unfold run_xor_outline.
  by rewrite Ha, Hb, bool_decide_eq_true_2, Hd.
Qed.

(** C1. The unit check is meant to reject two layouts whose database units
    differ by more than 1e-6 in absolute value.  [layout_ref] (0.001) and
    [layout_coarse] (0.00101) differ by 1e-5 and have the same layers, top
    cell and shapes.  With the coarser file second the subtraction of line
    56 is negative, the check lets the pair through and the call returns;
    with the coarser file first the call fails on the unit check. *)
Theorem C1_dbu_check_is_one_sided :
  PrimFloat.ltb eps_dbu
    (PrimFloat.abs (PrimFloat.sub (dbu layout_ref) (dbu layout_coarse))) = true ∧
  run_xor sample_disk "ref.gds" "coarse.gds" 10 false =
    ([Ev_xor "TOP" 0 0; Ev_xor "TOP" 1 1], Return tt) ∧
  run_xor sample_disk "coarse.gds" "ref.gds" 10 false =
    ([], Raise (GeometryDifference
                  (Msg_dbu "coarse.gds" (dbu layout_coarse)
                           "ref.gds" (dbu layout_ref)))).
Proof. by vm_compute. Qed.

(** ** The layer-set check within [run_xor] *)

Section layer_check.
Context {Region : Type} `{!RegionOps Region}.
Implicit Types la lb : Layout Region.

Lemma layers_agree_same_set la lb : layers_agree la lb ↔ same_layer_set la lb.
Proof. unfold layers_agree, same_layer_set. by rewrite !first_missing_None. Qed.

Lemma find_pointwise {A : Type} (f g : A → bool) (xs : list A) :
  (∀ x, f x = g x) → List.find f xs = List.find g xs.
Proof.
  intros Hfg. induction xs as [|x xs IH]; [done|].
  cbn [List.find]. by rewrite Hfg, IH.
Qed.

(** The first missing layer is read off the two layer tables alone. *)
Lemma first_missing_tables la lb la' lb' :
  layer_infos la' = layer_infos la → layer_infos lb' = layer_infos lb →
  first_missing la' lb' = first_missing la lb.
Proof.
  intros Ha Hb. unfold first_missing. rewrite Ha.
  apply find_pointwise. intros li. apply bool_decide_ext.
  by rewrite !find_layer_None, Hb.
Qed.

(** A missing layer ends the call at once: which layer, and which of the
    two loops found it. *)
Lemma run_xor_layer_missing
    (kdb_read : string → outcome (Layout Region))
    (file1 file2 : string) (tolerance : Z) (verbose : bool) la lb :
  kdb_read file1 = Return la → kdb_read file2 = Return lb →
  ¬ same_layer_set la lb →
  run_xor kdb_read file1 file2 tolerance verbose =
  match first_missing la lb with
  | Some li => ([], Raise (GeometryDifference (Msg_layer li file1 file2)))
  | None =>
      match first_missing lb la with
      | Some li => ([], Raise (GeometryDifference (Msg_layer li file2 file1)))
      | None => ([], Return tt)
      end
  end ∧
  (is_Some (first_missing la lb) ∨ is_Some (first_missing lb la)).
Proof.
  intros H1 H2 Hnot.
  rewrite (run_xor_outline_correct _ _ _ _ _ _ _ H1 H2). unfold run_xor_outline.
  destruct (first_missing la lb) as [li|] eqn:Ha; [by eauto|].
  destruct (first_missing lb la) as [li|] eqn:Hb; [by eauto|].
  exfalso. by apply Hnot, layers_agree_same_set.
Qed.

(** C2. The layer sets of the two layouts must contain each other.  The
    call raises a missing-layer error exactly when they do not.  That
    error names a layer one layout has and the other lacks, and the two
    files in the order "has, lacks"; it is raised before any XOR is
    computed or anything printed; and it is the same for every
    tolerance and verbosity and for any two layouts with these layer
    tables, whatever their cells, shapes and units. *)
Theorem C2_layer_sets_must_match
    (kdb_read : string → outcome (Layout Region))
    (file1 file2 : string) (tolerance : Z) (verbose : bool)
    (l1 l2 : Layout Region) :
  kdb_read file1 = Return l1 → kdb_read file2 = Return l2 →
  let run := run_xor kdb_read file1 file2 tolerance verbose in
  ((∀ li fa fb, raised run ≠ Some (GeometryDifference (Msg_layer li fa fb)))
     ↔ same_layer_set l1 l2) ∧
  (¬ same_layer_set l1 l2 →
     (∃ li, (run = ([], Raise (GeometryDifference (Msg_layer li file1 file2)))
               ∧ li ∈ layer_infos l1 ∧ li ∉ layer_infos l2)
            ∨ (run = ([], Raise (GeometryDifference (Msg_layer li file2 file1)))
               ∧ li ∈ layer_infos l2 ∧ li ∉ layer_infos l1)) ∧
     (∀ (kdb_read' : string → outcome (Layout Region))
         (l1' l2' : Layout Region) (tolerance' : Z) (verbose' : bool),
        kdb_read' file1 = Return l1' → kdb_read' file2 = Return l2' →
        layer_infos l1' = layer_infos l1 → layer_infos l2' = layer_infos l2 →
        run_xor kdb_read' file1 file2 tolerance' verbose' = run)).
Proof.
  intros H1 H2 run.
  assert (Hfail : ¬ same_layer_set l1 l2 →
            ∃ li, (run = ([], Raise (GeometryDifference (Msg_layer li file1 file2)))
                     ∧ li ∈ layer_infos l1 ∧ li ∉ layer_infos l2)
                  ∨ (run = ([], Raise (GeometryDifference (Msg_layer li file2 file1)))
                     ∧ li ∈ layer_infos l2 ∧ li ∉ layer_infos l1)).
  { intros Hnot.
    destruct (run_xor_layer_missing kdb_read file1 file2 tolerance verbose
                l1 l2 H1 H2 Hnot) as [Hrun Hsome].
    fold run in Hrun.
    destruct (first_missing l1 l2) as [li|] eqn:Ha.
    - exists li. left. split; [done|]. by apply first_missing_Some.
    - destruct Hsome as [[? [=]]|[li Hb]]. rewrite Hb in Hrun.
      exists li. right. split; [done|]. by apply first_missing_Some. }
  split; [split|].
  - intros Hno. destruct (decide (first_missing l1 l2 = None)) as [Ha|Ha];
      [destruct (decide (first_missing l2 l1 = None)) as [Hb|Hb]|].
    + by apply layers_agree_same_set.
    + destruct Hfail as [li [[Hr _]|[Hr _]]].
      * intros Hs. by apply layers_agree_same_set in Hs as [_ ?].
      * exfalso. apply (Hno li file1 file2). unfold raised. by rewrite Hr.
      * exfalso. apply (Hno li file2 file1). unfold raised. by rewrite Hr.
    + destruct Hfail as [li [[Hr _]|[Hr _]]].
      * intros Hs. by apply layers_agree_same_set in Hs as [? _].
      * exfalso. apply (Hno li file1 file2). unfold raised. by rewrite Hr.
      * exfalso. apply (Hno li file2 file1). unfold raised. by rewrite Hr.
  - intros Hsame li fa fb. apply layers_agree_same_set in Hsame as [Ha Hb].
    unfold run, raised.
    rewrite (run_xor_outline_correct _ _ _ _ _ _ _ H1 H2). unfold run_xor_outline.
    rewrite Ha, Hb.
    destruct (negb _); [done|]. destruct (dbu_differs _ _); [done|].
    by destruct (difftool_outline_end l1 file1 file2 tolerance verbose
                   (list_prod (matched_topcells l1 l2) (matched_layers l1 l2)))
      as [->|[->|[-> _]]].
  - intros Hnot. split; [by apply Hfail|].
    intros kdb_read' l1' l2' tolerance' verbose' H1' H2' Hl1 Hl2.
    assert (Hnot' : ¬ same_layer_set l1' l2').
    { unfold same_layer_set. by rewrite Hl1, Hl2. }
    destruct (run_xor_layer_missing kdb_read' file1 file2 tolerance' verbose'
                l1' l2' H1' H2' Hnot') as [-> _].
    destruct (run_xor_layer_missing kdb_read file1 file2 tolerance verbose
                l1 l2 H1 H2 Hnot) as [Hrun _].
    unfold run. rewrite Hrun.
    by rewrite (first_missing_tables l1 l2 l1' l2'),
               (first_missing_tables l2 l1 l2' l1').
Qed.
End layer_check.

(** [layout_one_layer] lacks layer 2/0 of [layout_ref]: the call fails with
    the layer error in either order of the files. *)
Lemma C2_layer_sets_must_match_witness :
  sample_disk "one_layer.gds" = Return layout_one_layer ∧
  sample_disk "ref.gds" = Return layout_ref ∧
  ∃ li,
    (run_xor sample_disk "one_layer.gds" "ref.gds" 10 true =
       ([], Raise (GeometryDifference (Msg_layer li "one_layer.gds" "ref.gds")))
     ∧ li ∈ layer_infos layout_one_layer ∧ li ∉ layer_infos layout_ref)
    ∨ (run_xor sample_disk "one_layer.gds" "ref.gds" 10 true =
         ([], Raise (GeometryDifference (Msg_layer li "ref.gds" "one_layer.gds")))
       ∧ li ∈ layer_infos layout_ref ∧ li ∉ layer_infos layout_one_layer).
Proof.
  split; [reflexivity|]. split; [reflexivity|].
  apply (C2_layer_sets_must_match sample_disk "one_layer.gds" "ref.gds" 10 true
           layout_one_layer layout_ref eq_refl eq_refl).
  intros [_ Hsub]. specialize (Hsub (mkLayerInfo 2 0)).
  assert (Hin : mkLayerInfo 2 0 ∈ layer_infos layout_ref) by (right; left).
  apply Hsub in Hin. vm_compute in Hin.
  apply list_elem_of_singleton in Hin. discriminate Hin.
Defined.

(** ** One exception class for every failed comparison *)

Section exception_class.
Context {Region : Type} `{!RegionOps Region}.

(** C3, as amended.  Every exception the module itself raises from
    [run_xor] on two readable files is a [GeometryDifference]: the
    structural checks and the difftool share the class.  Only the text
    tells them apart: it is one of the three structural texts exactly
    when the layouts disagree on layers, top cells or unit (as line 56
    compares units), and otherwise it is "Differences found between
    layouts" with the two file names.  The one exception that is not the
    module's is the engine's [TypeError], for comparable layouts and a
    tolerance beyond 2^31. *)
Theorem C3_one_class_for_all_failures
    (kdb_read : string → outcome (Layout Region))
    (file1 file2 : string) (tolerance : Z) (verbose : bool)
    (l1 l2 : Layout Region) (e : exn) :
  kdb_read file1 = Return l1 → kdb_read file2 = Return l2 →
  raised (run_xor kdb_read file1 file2 tolerance verbose) = Some e →
  (class_of e = Cls_GeometryDifference ∧
   ∃ m, e = GeometryDifference m ∧
        (is_structural m = true ↔ ¬ structure_agrees l1 l2) ∧
        (is_structural m = false → m = Msg_differences file1 file2)) ∨
  (e = TypeError "Region.size" ∧ structure_agrees l1 l2 ∧
   (2147483648 < tolerance)%Z).
Proof.
  intros H1 H2. unfold raised, structure_agrees, layers_agree, topcells_agree.
  rewrite (run_xor_outline_correct _ _ _ _ _ _ _ H1 H2). unfold run_xor_outline.
  destruct (first_missing l1 l2) as [li|]; cbn [snd].
  { intros [= <-]. left. split; [done|]. eexists. split; [done|]. cbn.
    split; [|done]. split; [|done]. by intros _ [[[=] _] _]. }
  destruct (first_missing l2 l1) as [li|]; cbn [snd].
  { intros [= <-]. left. split; [done|]. eexists. split; [done|]. cbn.
    split; [|done]. split; [|done]. by intros _ [[_ [=]] _]. }
  destruct (bool_decide (topcell_names l1 = topcell_names l2)) eqn:Htc;
    cbn [negb snd].
  2:{ apply bool_decide_eq_false in Htc.
      intros [= <-]. left. split; [done|]. eexists. split; [done|]. cbn.
      split; [|done]. split; [|done]. by intros _ (_ & ? & _). }
  apply bool_decide_eq_true in Htc.
  destruct (dbu_differs (dbu l1) (dbu l2)) eqn:Hd; cbn [snd].
  { intros [= <-]. left. split; [done|]. eexists. split; [done|]. cbn.
    split; [|done]. split; [|done]. by intros _ (_ & _ & [=]). }
  destruct (difftool_outline_end l1 file1 file2 tolerance verbose
              (list_prod (matched_topcells l1 l2) (matched_layers l1 l2)))
    as [->|[->|[-> Hok]]]; [done| |].
  - intros [= <-]. left. split; [done|]. eexists. split; [done|]. cbn.
    split; [|done]. split; [done|]. intros Hn. by exfalso; apply Hn.
  - intros [= <-]. right. split; [done|]. split; [done|].
    apply not_true_iff_false in Hok. rewrite tolerance_ok_le in Hok. lia.
Qed.
End exception_class.

(** A missing layer and a geometric difference raise the same class: an
    [except GeometryDifference] clause catches both, and the command line
    ends with status 1 on both. *)
Lemma C3_structural_failure_is_GeometryDifference :
  raised (run_xor sample_disk "ref.gds" "one_layer.gds" 10 false) =
    Some (GeometryDifference
            (Msg_layer (mkLayerInfo 2 0) "ref.gds" "one_layer.gds")) ∧
  raised (run_xor sample_disk "ref.gds" "speck.gds" 0 false) =
    Some (GeometryDifference (Msg_differences "ref.gds" "speck.gds")) ∧
  class_of (GeometryDifference
              (Msg_layer (mkLayerInfo 2 0) "ref.gds" "one_layer.gds")) =
  class_of (GeometryDifference (Msg_differences "ref.gds" "speck.gds")).
Proof. by vm_compute. Qed.

Lemma C3_one_class_for_all_failures_witness :
  sample_disk "ref.gds" = Return layout_ref ∧
  sample_disk "one_layer.gds" = Return layout_one_layer ∧
  raised (run_xor sample_disk "ref.gds" "one_layer.gds" 10 false) =
    Some (GeometryDifference
            (Msg_layer (mkLayerInfo 2 0) "ref.gds" "one_layer.gds")) ∧
  class_of (GeometryDifference
              (Msg_layer (mkLayerInfo 2 0) "ref.gds" "one_layer.gds")) =
    Cls_GeometryDifference.
Proof.
  split; [reflexivity|]. split; [reflexivity|]. split; [reflexivity|].
  destruct (C3_one_class_for_all_failures sample_disk "ref.gds"
              "one_layer.gds" 10 false layout_ref layout_one_layer
              (GeometryDifference
                 (Msg_layer (mkLayerInfo 2 0) "ref.gds" "one_layer.gds"))
              eq_refl eq_refl eq_refl) as [[Hclass _]|[Hother _]].
  - exact Hclass.
  - discriminate Hother.
Defined.

(** ** The geometric pass *)

Section geometric_pass.
Context {Region : Type} `{!RegionOps Region}.

(** With no layer of [l1] missing in [l2], every layer index of [l1]
    has its pair. *)
Lemma matched_layers_fst (l1 l2 : Layout Region) :
  first_missing l1 l2 = None →
  fst <$> matched_layers l1 l2 = layer_indices l1.
Proof.
  intros Hnone. unfold matched_layers.
  assert (Hall : ∀ i, i ∈ layer_indices l1 →
                      is_Some (find_layer l2 (get_info l1 i))).
  { intros i Hi. apply not_eq_None_Some. rewrite find_layer_None.
    intros Hnot. apply Hnot. apply (proj1 (first_missing_None l1 l2) Hnone).
    by apply list_elem_of_fmap_2. }
  induction (layer_indices l1) as [|i idxs IH]; [done|].
  destruct (Hall i) as [ll2 Hll2]; [left|].
  cbn [omap list_omap]. rewrite Hll2. cbn. f_equal.
  apply IH. intros j Hj. apply Hall. by right.
Qed.

Lemma xors_pair_events (l1 : Layout Region) (tolerance : Z) (verbose : bool)
    (pairs : list ((Cell Region * Cell Region) * (nat * nat))) :
  xors (concat (pair_events l1 tolerance verbose <$> pairs)) =
  (λ p, (name p.1.1, p.2.1, p.2.2)) <$> pairs.
Proof.
  unfold xors. induction pairs as [|p pairs IH]; [done|].
  rewrite !fmap_cons. cbn [concat]. rewrite omap_app, IH.
  unfold pair_events. by destruct verbose.
Qed.

Lemma existsb_In {A : Type} (f : A → bool) (xs : list A) :
  existsb f xs = true ↔ ∃ x, x ∈ xs ∧ f x = true.
Proof.
  rewrite existsb_exists. by setoid_rewrite list_elem_of_In.
Qed.

(** A disjunction does not depend on the order of its terms. *)
Lemma existsb_Permutation {A : Type} (f : A → bool) (xs ys : list A) :
  xs ≡ₚ ys → existsb f xs = existsb f ys.
Proof.
  intros Hp. apply eq_true_iff_eq. rewrite !existsb_In.
  by setoid_rewrite Hp.
Qed.

(** Without [verbose] the pairs print nothing. *)
Lemma stdout_pair_events_quiet (l1 : Layout Region) (tolerance : Z)
    (pairs : list ((Cell Region * Cell Region) * (nat * nat))) :
  stdout (concat (pair_events l1 tolerance false <$> pairs)) = [].
Proof.
  unfold stdout. induction pairs as [|p pairs IH]; [done|].
  rewrite fmap_cons. cbn [concat]. by rewrite omap_app, IH.
Qed.

(** A call without [verbose] prints nothing, however it ends. *)
Lemma run_xor_quiet (kdb_read : string → outcome (Layout Region))
    (file1 file2 : string) (tolerance : Z) :
  stdout (run_xor kdb_read file1 file2 tolerance false).1 = [].
Proof.
  destruct (kdb_read file1) as [l1|e1] eqn:H1;
    [|by unfold run_xor, lift; rewrite H1].
  destruct (kdb_read file2) as [l2|e2] eqn:H2;
    [|by unfold run_xor, lift; rewrite H1, bind_return, H2].
  rewrite (run_xor_outline_correct _ _ _ _ _ _ _ H1 H2).
  unfold run_xor_outline.
  destruct (first_missing l1 l2); [done|].
  destruct (first_missing l2 l1); [done|].
  destruct (negb _); [done|]. destruct (dbu_differs _ _); [done|].
  unfold difftool_outline. destruct (tolerance_ok tolerance).
  - apply stdout_pair_events_quiet.
  - by destruct (list_prod _ _).
Qed.

(** Past the structural checks and within the range of the engine's
    coordinates, the call is the walk over all pairs. *)
Lemma run_xor_geometric (kdb_read : string → outcome (Layout Region))
    (file1 file2 : string) (tolerance : Z) (verbose : bool)
    (l1 l2 : Layout Region) :
  kdb_read file1 = Return l1 → kdb_read file2 = Return l2 →
  structure_agrees l1 l2 → (tolerance ≤ 2147483648)%Z →
  run_xor kdb_read file1 file2 tolerance verbose =
  (concat (pair_events l1 tolerance verbose <$>
             list_prod (matched_topcells l1 l2) (matched_layers l1 l2)),
   if existsb (pair_differs tolerance)
        (list_prod (matched_topcells l1 l2) (matched_layers l1 l2))
   then Raise (GeometryDifference (Msg_differences file1 file2))
   else Return tt).
Proof.
  intros H1 H2 ([Ha Hb] & Htc & Hd) Hle.
  rewrite (run_xor_outline_correct _ _ _ _ _ _ _ H1 H2).
  unfold run_xor_outline.
  rewrite Ha, Hb, bool_decide_eq_true_2, Hd by done. cbn [negb].
  by apply difftool_outline_in_range.
Qed.

(** C6, as amended.  Once the three structural checks have passed, and for
    a tolerance of at most 2^31 (so that [Region.size] takes
    [-tolerance]), the difftool walks the Cartesian product of the top
    cells (all of them, in sorted order of their names) and the layer
    pairs (all layers of the first layout, in index order), cell by cell
    and layer by layer within a cell.  It computes one XOR per pair, never stopping early; each
    pair's result is whether its XOR, eroded by the tolerance when the
    tolerance is positive, is non-empty; the call raises the
    [GeometryDifference] naming both files exactly when some pair's
    result is true, and returns otherwise.  Being a disjunction, the
    verdict is the same for every order of the pairs. *)
Theorem C6_geometric_pass
    (kdb_read : string → outcome (Layout Region))
    (file1 file2 : string) (tolerance : Z) (verbose : bool)
    (l1 l2 : Layout Region) :
  kdb_read file1 = Return l1 → kdb_read file2 = Return l2 →
  structure_agrees l1 l2 → (tolerance ≤ 2147483648)%Z →
  let pairs := list_prod (matched_topcells l1 l2) (matched_layers l1 l2) in
  let run := run_xor kdb_read file1 file2 tolerance verbose in
  (λ p, name p.1) <$> matched_topcells l1 l2 = topcell_names l1 ∧
  fst <$> matched_layers l1 l2 = layer_indices l1 ∧
  xors run.1 = (λ p, (name p.1.1, p.2.1, p.2.2)) <$> pairs ∧
  run.2 = (if existsb (pair_differs tolerance) pairs
           then Raise (GeometryDifference (Msg_differences file1 file2))
           else Return tt) ∧
  (raised run = Some (GeometryDifference (Msg_differences file1 file2))
     ↔ ∃ p, p ∈ pairs ∧
            region_is_empty (eroded_xor tolerance p.1 p.2) = false) ∧
  (∀ pairs', pairs' ≡ₚ pairs →
     existsb (pair_differs tolerance) pairs' =
     existsb (pair_differs tolerance) pairs).
Proof.
  intros H1 H2 Hs Hle pairs run.
  assert (Hrun : run =
    (concat (pair_events l1 tolerance verbose <$> pairs),
     if existsb (pair_differs tolerance) pairs
     then Raise (GeometryDifference (Msg_differences file1 file2))
     else Return tt))
    by (by apply run_xor_geometric).
  destruct Hs as ([Ha Hb] & Htc & Hd).
  split; [by apply matched_topcells_names|].
  split; [by apply matched_layers_fst|].
  split; [by rewrite Hrun; apply xors_pair_events|].
  split; [by rewrite Hrun|].
  split; [|by intros pairs' Hp; apply existsb_Permutation].
  unfold raised. rewrite Hrun. cbn [snd].
  destruct (existsb (pair_differs tolerance) pairs) eqn:Hex.
  - split; [intros _|done]. apply existsb_In in Hex as (p & Hp & Hdiff).
    exists p. split; [done|]. unfold pair_differs in Hdiff.
    by apply negb_true_iff in Hdiff.
  - split; [done|]. intros (p & Hp & Hne). exfalso.
    apply not_true_iff_false in Hex. apply Hex, existsb_In.
    exists p. split; [done|]. unfold pair_differs. by rewrite Hne.
Qed.
End geometric_pass.

(** The reference against the reference with a speck, exact match asked:
    both layers of the one top cell are compared, and the speck on the
    first decides. *)
Lemma C6_geometric_pass_witness :
  sample_disk "ref.gds" = Return layout_ref ∧
  sample_disk "speck.gds" = Return layout_speck ∧
  structure_agrees layout_ref layout_speck ∧
  xors (run_xor sample_disk "ref.gds" "speck.gds" 0 false).1 =
    [("TOP", 0%nat, 0%nat); ("TOP", 1%nat, 1%nat)] ∧
  (run_xor sample_disk "ref.gds" "speck.gds" 0 false).2 =
    Raise (GeometryDifference (Msg_differences "ref.gds" "speck.gds")).
Proof.
  assert (Hs : structure_agrees layout_ref layout_speck)
    by (repeat split; reflexivity).
  assert (Hle : (0 ≤ 2147483648)%Z) by lia.
  split; [reflexivity|]. split; [reflexivity|]. split; [exact Hs|].
  destruct (C6_geometric_pass sample_disk "ref.gds" "speck.gds" 0 false
              layout_ref layout_speck eq_refl eq_refl Hs Hle)
    as (_ & _ & Hx & Hv & _).
  split; [exact Hx | exact Hv].
Defined.

(** The same two files at a tolerance beyond the engine's coordinates:
    the structural checks pass and there are two pairs to compare, but the
    [size] call of the first pair raises; the second pair is never looked
    at and the call ends on a [TypeError], not on a verdict. *)
Lemma C6_size_call_ends_the_walk :
  structure_agrees layout_ref layout_speck ∧
  length (list_prod (matched_topcells layout_ref layout_speck)
                    (matched_layers layout_ref layout_speck)) = 2 ∧
  run_xor sample_disk "ref.gds" "speck.gds" 4294967297 true =
    ([Ev_xor "TOP" 0 0], Raise (TypeError "Region.size")).
Proof. repeat split; reflexivity. Qed.

(** ** The pixel engine obeys the region laws *)

Lemma elem_of_square (p q : Z * Z) (d : Z) :
  q ∈ square p d ↔
  (p.1 - d ≤ q.1 ≤ p.1 + d)%Z ∧ (p.2 - d ≤ q.2 ≤ p.2 + d)%Z.
Proof.
  unfold square. destruct q as [x y]. cbn [fst snd].
  rewrite list_elem_of_bind. split.
  - intros (x' & Hy & Hx). apply list_elem_of_bind in Hy as (y' & Hq & Hy).
    apply list_elem_of_singleton in Hq as [= -> ->].
    apply elem_of_seqZ in Hx, Hy. lia.
  - intros [Hx Hy]. exists x. split; [|apply elem_of_seqZ; lia].
    apply list_elem_of_bind. exists y.
    split; [by apply list_elem_of_singleton | apply elem_of_seqZ; lia].
Qed.

Lemma pixel_size_erode (r : pixels) (d : Z) :
  (0 < d < - coord_min)%Z →
  pixel_size r (- d) = filter (λ p, Forall (λ q, q ∈ r) (square p d)) r.
Proof.
  intros Hd. unfold pixel_size, coord_min in *.
  rewrite (proj2 (Z.eqb_neq _ _)), (proj2 (Z.ltb_lt (- d) 0)) by lia.
  by rewrite Z.opp_involutive.
Qed.

Lemma elem_of_pixel_erode (r : pixels) (d : Z) (p : Z * Z) :
  (0 < d)%Z →
  p ∈ filter (λ p, Forall (λ q, q ∈ r) (square p d)) r ↔
  ∀ q, (p.1 - d ≤ q.1 ≤ p.1 + d)%Z → (p.2 - d ≤ q.2 ≤ p.2 + d)%Z → q ∈ r.
Proof.
  intros Hd. rewrite elem_of_filter, Forall_forall. split.
  - intros [Hall _] q Hx Hy. apply Hall, elem_of_square. lia.
  - intros Hall. split.
    + intros q Hq. apply elem_of_square in Hq. apply Hall; lia.
    + apply Hall; lia.
Qed.

Lemma pixel_laws : RegionLaws pixels.
Proof.
  split; unfold region_is_empty, region_xor, region_size, pixel_ops.
  - intros r. apply bool_decide_eq_true.
    apply set_eq. intros p. rewrite elem_of_union, !elem_of_difference.
    split; [tauto|by intros ?%elem_of_empty].
  - intros r d Hd Hr. apply bool_decide_eq_true in Hr as ->.
    apply bool_decide_eq_true. unfold pixel_size.
    destruct (- d =? coord_min)%Z; [done|].
    rewrite (proj2 (Z.ltb_lt (- d) 0)) by lia.
    apply set_eq. intros p. rewrite elem_of_filter.
    split; [tauto|by intros ?%elem_of_empty].
Qed.

(** On pixels, shrinking by [d] and then by [e] is shrinking by [d + e]. *)
Lemma pixel_size_add (r : pixels) (d e : Z) :
  (0 < d)%Z → (0 < e)%Z → (d + e < - coord_min)%Z →
  pixel_size (pixel_size r (- d)) (- e) = pixel_size r (- (d + e)).
Proof.
  intros Hd He Hde.
  rewrite !pixel_size_erode by lia.
  apply set_eq. intros p. rewrite !elem_of_pixel_erode by lia. split.
  - intros Hall q Hx Hy.
    specialize (Hall (Z.max (p.1 - e) (Z.min (p.1 + e) q.1),
                      Z.max (p.2 - e) (Z.min (p.2 + e) q.2))).
    cbn [fst snd] in Hall.
    assert (Hin : (Z.max (p.1 - e) (Z.min (p.1 + e) q.1),
                   Z.max (p.2 - e) (Z.min (p.2 + e) q.2))
                  ∈ filter (λ p, Forall (λ q, q ∈ r) (square p d)) r)
      by (apply Hall; lia).
    rewrite elem_of_pixel_erode in Hin by lia.
    apply Hin; cbn [fst snd]; lia.
  - intros Hall q Hx Hy. rewrite elem_of_pixel_erode by lia.
    intros q' Hx' Hy'. apply Hall; lia.
Qed.

Lemma pixel_erosion_adds : ErosionAdds pixels.
Proof.
  intros r d e Hd He Hde. unfold region_is_empty, region_size, pixel_ops.
  by rewrite pixel_size_add.
Qed.

(** Polygons on the pixel engine: two boxes apart are two polygons, two
    boxes that meet in a corner are one, and a region shrunk by -2^31 is
    the region itself. *)
Example pixel_polygons :
  region_count (box 0 0 5 3 ∪ box 10 10 1 1 : pixels) = 2%nat ∧
  region_count (box 0 0 2 2 ∪ box 2 2 3 1 : pixels) = 1%nat ∧
  region_count (∅ : pixels) = 0%nat ∧
  region_size (box 0 0 5 3) (-1) = box 1 1 3 1 ∧
  region_size (box 0 0 5 3) coord_min = box 0 0 5 3.
Proof. repeat split; by vm_compute. Qed.

(** ** A file against its copy, and the tolerance *)

Section comparison_laws.
Context {Region : Type} `{!RegionOps Region} `{!RegionLaws Region}.
Context `{!ErosionAdds Region}.

Lemma first_missing_self (l : Layout Region) : first_missing l l = None.
Proof. by apply first_missing_None. Qed.

(** In a layout with distinct layers, a layer's properties lead back to
    its own index. *)
Lemma find_layer_distinct (l : Layout Region) (i : nat) :
  layers_distinct l → i ∈ layer_indices l →
  find_layer l (get_info l i) = Some i.
Proof.
  unfold layers_distinct, layer_infos, find_layer.
  induction (layer_indices l) as [|j idxs IH]; intros Hnd Hi.
  - by apply elem_of_nil in Hi.
  - rewrite fmap_cons in Hnd. apply NoDup_cons in Hnd as [Hj Hnd].
    cbn [List.find]. case_bool_decide as Heq.
    + apply elem_of_cons in Hi as [->|Hi]; [done|].
      exfalso. apply Hj. rewrite Heq. by apply list_elem_of_fmap_2.
    + apply elem_of_cons in Hi as [->|Hi]; [done|]. by apply IH.
Qed.

Lemma matched_layers_self (l : Layout Region) :
  layers_distinct l →
  matched_layers l l = (λ i, (i, i)) <$> layer_indices l.
Proof.
  intros Hnd. unfold matched_layers.
  assert (Hall : ∀ i, i ∈ layer_indices l →
                      find_layer l (get_info l i) = Some i)
    by (intros; by apply find_layer_distinct).
  induction (layer_indices l) as [|i idxs IH]; [done|].
  cbn [omap list_omap]. rewrite (Hall i) by left. cbn. f_equal.
  apply IH. intros j Hj. apply Hall. by right.
Qed.

Lemma matched_topcells_self (l : Layout Region)
    (p : Cell Region * Cell Region) :
  p ∈ matched_topcells l l → p.1 = p.2.
Proof.
  unfold matched_topcells. rewrite list_elem_of_omap.
  intros (n & _ & Hp). destruct (cell l n) as [c|]; [|done].
  by injection Hp as <-.
Qed.

(** Erosion keeps an empty region empty, for any tolerance the engine
    takes. *)
Lemma eroded_empty (tolerance : Z) (r : Region) :
  (tolerance ≤ 2147483648)%Z →
  region_is_empty r = true →
  region_is_empty
    (if (0 <? tolerance)%Z then region_size r (- tolerance) else r) = true.
Proof.
  intros Hle Hr. destruct (0 <? tolerance)%Z eqn:Ht; [|done].
  apply Z.ltb_lt in Ht. apply erode_empty; [|done].
  unfold coord_min. lia.
Qed.

(** C7, as amended.  A layout file compared with an exact copy of itself:
    the call returns normally, for every tolerance up to 2^31 (so for
    every tolerance from zero to 2^31) and either verbosity.  The layout
    is one read from a file: its layers are distinct. *)
Theorem C7_copy_yields_no_difference
    (kdb_read : string → outcome (Layout Region))
    (file1 file2 : string) (tolerance : Z) (verbose : bool)
    (l : Layout Region) :
  kdb_read file1 = Return l → kdb_read file2 = Return l →
  layers_distinct l →
  (tolerance ≤ 2147483648)%Z →
  (run_xor kdb_read file1 file2 tolerance verbose).2 = Return tt.
Proof.
  intros H1 H2 Hnd Hle.
  rewrite (run_xor_outline_correct _ _ _ _ _ _ _ H1 H2). unfold run_xor_outline.
  rewrite first_missing_self, bool_decide_eq_true_2, dbu_differs_same by done.
  cbn [negb]. rewrite difftool_outline_in_range by done. cbn [snd].
  destruct (existsb _ _) eqn:Hex; [exfalso|done].
  apply existsb_In in Hex as ([tcs lp] & Hin & Hdiff).
  apply list_elem_of_In, in_prod_iff in Hin as [Htc Hlp].
  apply list_elem_of_In, matched_topcells_self in Htc.
  apply list_elem_of_In in Hlp. rewrite matched_layers_self in Hlp by done.
  apply list_elem_of_fmap in Hlp as (i & -> & _).
  unfold pair_differs, eroded_xor in Hdiff. cbn [fst snd] in Hdiff.
  rewrite Htc, eroded_empty in Hdiff by (done || apply xor_self_empty). done.
Qed.

(** Erosion by more leaves no more, below 2^31: a pair that shows no
    difference at one tolerance shows none at a larger one.  Shrinking by
    the larger distance is shrinking by the smaller one and then by the
    rest, and what is empty stays empty. *)
Lemma pair_differs_antitone (t t' : Z)
    (p : (Cell Region * Cell Region) * (nat * nat)) :
  (t ≤ t')%Z → (t' < 2147483648)%Z →
  pair_differs t p = false → pair_differs t' p = false.
Proof.
  unfold pair_differs, eroded_xor. intros Hle Hlt Hp.
  apply negb_false_iff in Hp. apply negb_false_iff.
  destruct (0 <? t)%Z eqn:Ht.
  - apply Z.ltb_lt in Ht. rewrite (proj2 (Z.ltb_lt 0 t')) by lia.
    destruct (decide (t = t')) as [<-|Hne]; [done|].
    replace t' with (t + (t' - t))%Z by lia.
    apply erode_add_empty; [unfold coord_min; lia..|].
    apply erode_empty; [unfold coord_min; lia|done].
  - apply eroded_empty; [lia|done].
Qed.

(** C8, as amended.  For fixed files the verdict is monotone in the
    tolerance below 2^31: a call that returns normally at tolerance [t]
    returns normally at every tolerance [t'] from [t] up to 2^31 - 1,
    whatever the verbosity of either call. *)
Theorem C8_tolerance_monotone
    (kdb_read : string → outcome (Layout Region))
    (file1 file2 : string) (t t' : Z) (verbose verbose' : bool) :
  (t ≤ t')%Z → (t' < 2147483648)%Z →
  (run_xor kdb_read file1 file2 t verbose).2 = Return tt →
  (run_xor kdb_read file1 file2 t' verbose').2 = Return tt.
Proof.
  intros Hle Hlt.
  destruct (kdb_read file1) as [l1|e1] eqn:H1;
    [|by unfold run_xor, lift; rewrite H1].
  destruct (kdb_read file2) as [l2|e2] eqn:H2;
    [|by unfold run_xor, lift; rewrite H1, bind_return, H2].
  rewrite !(run_xor_outline_correct _ _ _ _ _ _ _ H1 H2).
  unfold run_xor_outline.
  destruct (first_missing l1 l2); [done|].
  destruct (first_missing l2 l1); [done|].
  destruct (negb _); [done|]. destruct (dbu_differs _ _); [done|].
  rewrite !difftool_outline_in_range by lia. cbn [snd].
  destruct (existsb (pair_differs t) _) eqn:Hex; [done|]. intros _.
  destruct (existsb (pair_differs t') _) eqn:Hex'; [exfalso|done].
  apply existsb_In in Hex' as (p & Hp & Hdiff).
  apply not_true_iff_false in Hex. apply Hex, existsb_In.
  exists p. split; [done|].
  destruct (pair_differs t p) eqn:Hd; [done|].
  by rewrite (pair_differs_antitone t t' p Hle Hlt Hd) in Hdiff.
Qed.
End comparison_laws.

(** The reference against its copy on the pixel engine. *)
Lemma C7_copy_yields_no_difference_witness :
  sample_disk "ref.gds" = Return layout_ref ∧
  sample_disk "copy.gds" = Return layout_ref ∧
  layers_distinct layout_ref ∧
  (run_xor sample_disk "ref.gds" "copy.gds" 10 true).2 = Return tt.
Proof.
  assert (Hnd : layers_distinct layout_ref)
    by (apply (bool_decide_unpack _); reflexivity).
  assert (Hle : (10 ≤ 2147483648)%Z) by lia.
  split; [reflexivity|]. split; [reflexivity|]. split; [exact Hnd|].
  exact (C7_copy_yields_no_difference (RegionLaws0 := pixel_laws)
           sample_disk "ref.gds" "copy.gds" 10 true layout_ref
           eq_refl eq_refl Hnd Hle).
Defined.

(** The reference against its copy at a tolerance beyond the engine's
    coordinates: the [size] call of the first pair raises, and the call
    ends on a [TypeError] instead of returning. *)
Lemma C7_copy_beyond_coordinate_range :
  sample_disk "ref.gds" = sample_disk "copy.gds" ∧
  (0 ≤ 4294967297)%Z ∧
  run_xor sample_disk "ref.gds" "copy.gds" 4294967297 false =
    ([Ev_xor "TOP" 0 0], Raise (TypeError "Region.size")).
Proof. split; [reflexivity|]. split; [lia|reflexivity]. Qed.

(** A box one unit wider than the reference: no difference at tolerance 1,
    hence none at tolerance 2. *)
Lemma C8_tolerance_monotone_witness :
  (1 ≤ 2)%Z ∧
  (run_xor sample_disk "ref.gds" "wide.gds" 1 false).2 = Return tt ∧
  (run_xor sample_disk "ref.gds" "wide.gds" 2 true).2 = Return tt.
Proof.
  assert (Hle : (1 ≤ 2)%Z) by lia.
  assert (H1 : (run_xor sample_disk "ref.gds" "wide.gds" 1 false).2 = Return tt)
    by reflexivity.
  assert (Hlt : (2 < 2147483648)%Z) by lia.
  split; [exact Hle|]. split; [exact H1|].
  exact (C8_tolerance_monotone (RegionLaws0 := pixel_laws)
           (ErosionAdds0 := pixel_erosion_adds)
           sample_disk "ref.gds" "wide.gds" 1 2 false true Hle Hlt H1).
Defined.

(** The same two files from 2^31 on.  At tolerance 1 the call returns.
    At 2^31 the engine is asked to size by -2^31, which it does not erode
    by: the difference is back.  Beyond 2^31 the [size] call raises and
    the call ends on a [TypeError].  In both cases a larger tolerance has
    turned "same" into something else. *)
Lemma C8_no_difference_lost_from_2_31 :
  (run_xor sample_disk "ref.gds" "wide.gds" 1 false).2 = Return tt ∧
  (1 ≤ 2147483648)%Z ∧
  (run_xor sample_disk "ref.gds" "wide.gds" 2147483648 false).2 =
    Raise (GeometryDifference (Msg_differences "ref.gds" "wide.gds")) ∧
  (1 ≤ 4294967297)%Z ∧
  (run_xor sample_disk "ref.gds" "wide.gds" 4294967297 false).2 =
    Raise (TypeError "Region.size").
Proof.
  split; [reflexivity|]. split; [lia|]. split; [reflexivity|].
  split; [lia|reflexivity].
Qed.

(** The unit square present on one side only: a difference at tolerance
    0, none from tolerance 1 on. *)
Example speck_erodes_away :
  raised (run_xor sample_disk "ref.gds" "speck.gds" 0 false) =
    Some (GeometryDifference (Msg_differences "ref.gds" "speck.gds")) ∧
  run_xor sample_disk "ref.gds" "speck.gds" 1 false =
    ([Ev_xor "TOP" 0 0; Ev_xor "TOP" 1 1], Return tt).
Proof. by vm_compute. Qed.

(** ** The choice of the engine *)

(** What the import binds, read off the nested [try]s. *)
Lemma load_module_binding (env : environment) :
  load_module env =
  ([], Return (if has_klayout_db env then The_run_xor
               else if has_phidl env && has_gdspy env && has_phidl_geometry env
                    then The_run_xor_phidl
               else The_run_xor_pya)).
Proof.
  destruct env as [kdb ph gd pg tool]. cbn [has_klayout_db has_phidl has_gdspy
    has_phidl_geometry]. by destruct kdb, ph, gd, pg.
Qed.

(** C4, as amended.  Importing the module tries the in-process library
    first and the polygon-boolean trio ([phidl], [gdspy],
    [phidl.geometry]) second; when neither imports, the routine for the
    external tool is bound, without a look at whether the tool exists.
    One routine is bound, the import prints nothing and raises nothing,
    and two environments in which the same imports succeed bind the same
    routine. *)
Theorem C4_import_order (env : environment) :
  load_module env =
  ([], Return (if has_klayout_db env then The_run_xor
               else if has_phidl env && has_gdspy env && has_phidl_geometry env
                    then The_run_xor_phidl
               else The_run_xor_pya)) ∧
  ∀ env' : environment,
    has_klayout_db env' = has_klayout_db env →
    has_phidl env' = has_phidl env →
    has_gdspy env' = has_gdspy env →
    has_phidl_geometry env' = has_phidl_geometry env →
    load_module env' = load_module env.
Proof.
  split; [apply load_module_binding|].
  intros env' Hk Hp Hg Hpg. by rewrite !load_module_binding, Hk, Hp, Hg, Hpg.
Qed.

(** With the polygon-boolean trio and the external tool both there and the
    in-process library absent, the specified order picks the external
    tool; the module binds the polygon-boolean routine. *)
Lemma C4_phidl_before_external_tool :
  spec_select env_phidl_and_tool = Some The_run_xor_pya ∧
  load_module env_phidl_and_tool = ([], Return The_run_xor_phidl).
Proof. by vm_compute. Qed.

(** ** The external tool that is not there *)









(** ** The polygon-boolean routine *)

Section phidl_properties.
Context {Polygon : Type}.
Variable fast_boolean :
  list Polygon → list Polygon → string → float → Z → Z → Z →
  option (list Polygon).
Variable import_gds : string → outcome (gmap spec (list Polygon)).
Implicit Types A B : gmap spec (list Polygon).

Lemma elem_of_concat {X : Type} (x : X) (ls : list (list X)) :
  x ∈ concat ls ↔ ∃ l, x ∈ l ∧ l ∈ ls.
Proof.
  rewrite list_elem_of_In, in_concat. split.
  - intros (l & Hl & Hx). exists l. by rewrite !list_elem_of_In.
  - intros (l & Hx & Hl). exists l. by rewrite <- !list_elem_of_In.
Qed.

(** Every member of [all_layers] is a key of one of the two
    dictionaries: the loop body always assigns [p]. *)
Lemma all_layers_keyed A B (layer : spec) :
  layer ∈ (∅ ∪ dom A) ∪ dom B → is_Some (A !! layer) ∨ is_Some (B !! layer).
Proof. rewrite (left_id_L ∅ (∪)), elem_of_union, !elem_of_dom. tauto. Qed.

Lemma xor_layer_elements A B (D : list (Polygon * spec)) (layer : spec) :
  xor_layer fast_boolean A B D layer =
  D ++ layer_elements fast_boolean A B layer.
Proof.
  unfold xor_layer, layer_elements, layer_result.
  destruct (A !! layer), (B !! layer);
    try destruct (fast_boolean _ _ _ _ _ _ _); by rewrite ?app_nil_r.
Qed.

Lemma xor_layers_fold A B (D : list (Polygon * spec)) (layers : list spec) :
  foldl (xor_layer fast_boolean A B) D layers =
  D ++ concat (layer_elements fast_boolean A B <$> layers).
Proof.
  revert D. induction layers as [|layer layers IH]; intros D.
  - by rewrite app_nil_r.
  - cbn [foldl]. rewrite IH, xor_layer_elements, fmap_cons. cbn [concat].
    by rewrite app_assoc.
Qed.

(** The result holds exactly the polygons of the per-layer values. *)
Lemma xor_polygons_phidl_elem A B (q : Polygon) (layer : spec) :
  (q, layer) ∈ xor_polygons_phidl fast_boolean A B ↔
  ∃ ps, layer_result fast_boolean A B layer = Some ps ∧ q ∈ ps.
Proof.
  unfold xor_polygons_phidl. rewrite xor_layers_fold, app_nil_l.
  rewrite elem_of_concat. split.
  - intros (els & Hq & Hels).
    apply list_elem_of_fmap in Hels as (layer' & -> & _).
    unfold layer_elements in Hq.
    destruct (layer_result _ _ _ layer') as [ps|] eqn:Hres;
      [|by apply elem_of_nil in Hq].
    apply list_elem_of_fmap in Hq as (q' & [= -> ->] & Hq'). by exists ps.
  - intros (ps & Hres & Hq). exists (layer_elements fast_boolean A B layer).
    split.
    + unfold layer_elements. rewrite Hres. apply list_elem_of_fmap. by exists q.
    + apply list_elem_of_fmap_2, elem_of_elements.
      unfold layer_result in Hres.
      rewrite (left_id_L ∅ (∪)), elem_of_union, !elem_of_dom.
      destruct (A !! layer), (B !! layer); try done; eauto.
Qed.

(** C10. Under the polygon-boolean routine neither the tolerance nor the
    verbosity has any effect: two calls on the same files agree in
    everything, whatever those two arguments are.  Once both files are
    imported the call prints nothing and its verdict is whether the
    layer-by-layer XOR has any element: it raises the
    [GeometryDifference] naming both files if so and returns if not, and
    raises nothing else, so no layer, top-cell or unit check exists
    here.  The elements are the polygons of [gdspy]'s XOR at precision
    0.001 on the layers both devices have, and all polygons of a layer
    only one of them has; nothing is eroded. *)
Theorem C10_phidl_ignores_tolerance (file1 file2 : string)
    (t1 t2 : Z) (v1 v2 : bool) :
  run_xor_phidl fast_boolean import_gds file1 file2 t1 v1 =
  run_xor_phidl fast_boolean import_gds file1 file2 t2 v2 ∧
  ∀ A B, import_gds file1 = Return A → import_gds file2 = Return B →
    run_xor_phidl fast_boolean import_gds file1 file2 t1 v1 =
      ([], if bool_decide (xor_polygons_phidl fast_boolean A B = [])
           then Return tt
           else Raise (GeometryDifference (Msg_differences file1 file2))) ∧
    (∀ e, raised (run_xor_phidl fast_boolean import_gds file1 file2 t1 v1)
            = Some e →
          e = GeometryDifference (Msg_differences file1 file2)) ∧
    (xor_polygons_phidl fast_boolean A B ≠ [] ↔
     ∃ layer ps q,
       q ∈ ps ∧
       match A !! layer, B !! layer with
       | Some a, Some b =>
           fast_boolean a b "xor" 0x1.0624dd2f1a9fcp-10%float 4000
                        layer.1 layer.2 = Some ps
       | Some a, None => ps = a
       | None, Some b => ps = b
       | None, None => False
       end).
Proof.
  split; [reflexivity|]. intros A B HA HB.
  assert (Hrun : run_xor_phidl fast_boolean import_gds file1 file2 t1 v1 =
      ([], if bool_decide (xor_polygons_phidl fast_boolean A B = [])
           then Return tt
           else Raise (GeometryDifference (Msg_differences file1 file2)))).
  { unfold run_xor_phidl, lift. rewrite HA, bind_return, HB, bind_return.
    destruct (xor_polygons_phidl fast_boolean A B) as [|el els]; [done|].
    by rewrite bool_decide_eq_false_2. }
  split; [exact Hrun|]. split.
  - intros e. unfold raised. rewrite Hrun. cbn [snd].
    by case_bool_decide; [|intros [= <-]].
  - split.
    + intros Hne.
      destruct (xor_polygons_phidl fast_boolean A B) as [|[q layer] els] eqn:Hx;
        [done|].
      assert (Hin : (q, layer) ∈ xor_polygons_phidl fast_boolean A B)
        by (rewrite Hx; left).
      apply xor_polygons_phidl_elem in Hin as (ps & Hres & Hq).
      exists layer, ps, q. split; [done|]. unfold layer_result in Hres.
      destruct (A !! layer), (B !! layer); by try injection Hres as <-.
    + intros (layer & ps & q & Hq & Hres) Hnil.
      assert (Hin : (q, layer) ∈ xor_polygons_phidl fast_boolean A B).
      { apply xor_polygons_phidl_elem. exists ps. split; [|done].
        unfold layer_result.
        destruct (A !! layer), (B !! layer); by try subst. }
      rewrite Hnil in Hin. by apply elem_of_nil in Hin.
Qed.
End phidl_properties.

(** Two devices with different layer sets, at two tolerances: the same
    [GeometryDifference], and no word about layers. *)
Lemma C10_phidl_ignores_tolerance_witness :
  sample_gds "ref.gds" = Return {[ (1, 0)%Z := [7%nat] ]} ∧
  sample_gds "more.gds" =
    Return {[ (1, 0)%Z := [7%nat]; (2, 0)%Z := [8%nat] ]} ∧
  run_xor_phidl sample_boolean sample_gds "ref.gds" "more.gds" 0 false =
  run_xor_phidl sample_boolean sample_gds "ref.gds" "more.gds" 1000 true ∧
  run_xor_phidl sample_boolean sample_gds "ref.gds" "more.gds" 0 false =
    ([], Raise (GeometryDifference (Msg_differences "ref.gds" "more.gds"))).
Proof.
  split; [reflexivity|]. split; [reflexivity|].
  destruct (C10_phidl_ignores_tolerance sample_boolean sample_gds
              "ref.gds" "more.gds" 0 1000 false true) as [Heq Hrun].
  split; [exact Heq|].
  exact (proj1 (Hrun _ _ eq_refl eq_refl)).
Defined.

(** ** The command line *)

(** The exit status: 0 when the bound routine returns, 1 (after printing
    the error) when it raises a [GeometryDifference] of any text; any
    other exception leaves the program as it is. *)
Lemma main_exit_status {Region : Type} `{!RegionOps Region} {Polygon : Type}
    (kdb_read : string → outcome (Layout Region))
    (launch : list string → proc_result) (module_dir : string)
    (fast_boolean : list Polygon → list Polygon → string → float → Z → Z → Z →
                    option (list Polygon))
    (import_gds : string → outcome (gmap spec (list Polygon)))
    (b : backend) (file1 file2 : string) (tol : Z) (verbose : bool) :
  main kdb_read launch module_dir fast_boolean import_gds b file1 file2 tol
       verbose =
  match call_run_xor kdb_read launch module_dir fast_boolean import_gds b
          file1 file2 tol verbose with
  | (ev, Return _) => (ev, Return 0%Z)
  | (ev, Raise (GeometryDifference m)) =>
      (ev ++ [Ev_print (Line_exn (GeometryDifference m))], Return 1%Z)
  | (ev, Raise e) => (ev, Raise e)
  end.
Proof.
  unfold main.
  destruct (call_run_xor _ _ _ _ _ _ _ _ _ _) as [ev [[]|e]].
  - cbn. by rewrite app_nil_r.
  - by destruct e.
Qed.

(** A missing layer ends the command line with status 1, like a geometric
    difference does. *)
Example main_status_on_missing_layer :
  (main sample_disk no_klayout "/opt/lytest" sample_boolean sample_gds
        The_run_xor "ref.gds" "one_layer.gds" 10 false).2 = Return 1%Z ∧
  (main sample_disk no_klayout "/opt/lytest" sample_boolean sample_gds
        The_run_xor "ref.gds" "speck.gds" 0 false).2 = Return 1%Z ∧
  (main sample_disk no_klayout "/opt/lytest" sample_boolean sample_gds
        The_run_xor "ref.gds" "copy.gds" 10 false).2 = Return 0%Z.
Proof. by vm_compute. Qed.

(** * Further properties of [kdb_xor.py] *)

(** ** The order of names *)

Lemma ascii_compare_refl (a : ascii) : (a ?= a)%char = Eq.
Proof. unfold Ascii.compare. apply N.compare_refl. Qed.

Lemma ascii_compare_trans (c : comparison) (a b d : ascii) :
  (a ?= b)%char = c → (b ?= d)%char = c → (a ?= d)%char = c.
Proof.
  unfold Ascii.compare. destruct c; intros H1 H2.
  - apply N.compare_eq_iff in H1, H2. apply N.compare_eq_iff. congruence.
  - apply N.compare_lt_iff in H1. apply N.compare_lt_iff in H2.
    apply N.compare_lt_iff. by apply N.lt_trans with (N_of_ascii b).
  - apply N.compare_gt_iff in H1. apply N.compare_gt_iff in H2.
    apply N.compare_gt_iff. by apply N.lt_trans with (N_of_ascii b).
Qed.

Lemma string_compare_not_Gt_trans (s1 s2 s3 : string) :
  (s1 ?= s2)%string ≠ Gt → (s2 ?= s3)%string ≠ Gt → (s1 ?= s3)%string ≠ Gt.
Proof.
  revert s2 s3. induction s1 as [|a s1 IH]; intros [|b s2] [|d s3];
    cbn [String.compare]; try done.
  destruct (a ?= b)%char eqn:Hab; [| |done];
    destruct (b ?= d)%char eqn:Hbd; try done; intros H1 H2.
  - rewrite (ascii_compare_trans Eq a b d) by done. by apply (IH s2).
  - apply Ascii.compare_eq_iff in Hab as ->. by rewrite Hbd.
  - apply Ascii.compare_eq_iff in Hbd as <-. by rewrite Hab.
  - by rewrite (ascii_compare_trans Lt a b d).
Qed.

Lemma str_le_trans : Transitive str_le.
Proof.
  intros s1 s2 s3. unfold str_le, String.leb. intros H1 H2.
  pose proof (string_compare_not_Gt_trans s1 s2 s3) as Ht.
  destruct (s1 ?= s2)%string, (s2 ?= s3)%string, (s1 ?= s3)%string;
    try done; by exfalso; apply Ht.
Qed.

Lemma str_le_total : Total str_le.
Proof. intros s1 s2. apply String.leb_total. Qed.

Lemma str_le_antisym : AntiSymm (=) str_le.
Proof. intros s1 s2. apply String.leb_antisym. Qed.

(** Sorting forgets the order the names came in, and nothing else. *)
Lemma sort_eq_Permutation (names1 names2 : list string) :
  sort names1 = sort names2 ↔ names1 ≡ₚ names2.
Proof.
  unfold sort. split.
  - intros Heq. rewrite <- (merge_sort_Permutation str_le names1), Heq.
    apply merge_sort_Permutation.
  - intros Hp.
    apply (@Sorted_unique _ str_le str_le_trans str_le_antisym).
    + apply Sorted_merge_sort, str_le_total.
    + apply Sorted_merge_sort, str_le_total.
    + by rewrite !merge_sort_Permutation.
Qed.

(** ** More on the in-process routine *)

Section run_xor_more.
Context {Region : Type} `{!RegionOps Region}.
Variable kdb_read : string → outcome (Layout Region).

(** X1. The top-cell check (lines 44-50), reached when the layer sets
    agree: the call fails with the top-cell error, listing both sorted
    name lists and with nothing computed or printed, exactly when the
    top-cell names of the two layouts are not the same up to their order.
    The order in which a layout lists its top cells plays no part. *)
Theorem X1_topcell_check (file1 file2 : string) (tolerance : Z)
    (verbose : bool) (l1 l2 : Layout Region) :
  kdb_read file1 = Return l1 → kdb_read file2 = Return l2 →
  layers_agree l1 l2 →
  let run := run_xor kdb_read file1 file2 tolerance verbose in
  (¬ (name <$> top_cells l1) ≡ₚ (name <$> top_cells l2) →
     run = ([], Raise (GeometryDifference
                         (Msg_topcell (sort (name <$> top_cells l1))
                                      (sort (name <$> top_cells l2)))))) ∧
  ((name <$> top_cells l1) ≡ₚ (name <$> top_cells l2) →
     ∀ n1 n2, raised run ≠ Some (GeometryDifference (Msg_topcell n1 n2))).
Proof.
  intros H1 H2 [Ha Hb] run. unfold run.
  rewrite (run_xor_outline_correct _ _ _ _ _ _ _ H1 H2).
  unfold run_xor_outline, topcell_names. rewrite Ha, Hb. split.
  - intros Hnp. rewrite bool_decide_eq_false_2; [done|].
    by rewrite sort_eq_Permutation.
  - intros Hp n1 n2. rewrite bool_decide_eq_true_2
      by (by apply sort_eq_Permutation).
    cbn [negb]. unfold raised.
    destruct (dbu_differs _ _); [done|].
    by destruct (difftool_outline_end l1 file1 file2 tolerance verbose
                 (list_prod (matched_topcells l1 l2) (matched_layers l1 l2)))
      as [->|[->|[-> _]]].
Qed.

(** X2. The unit check (lines 55-57), reached when layers and top cells
    agree: if the first unit exceeds the second by more than 1e-6 the call
    fails, with nothing computed or printed, naming both files and both
    units; and a pair of units whose absolute difference is at most 1e-6
    never fails this check. *)
Theorem X2_dbu_check (file1 file2 : string) (tolerance : Z)
    (verbose : bool) (l1 l2 : Layout Region) :
  kdb_read file1 = Return l1 → kdb_read file2 = Return l2 →
  layers_agree l1 l2 → topcells_agree l1 l2 →
  let run := run_xor kdb_read file1 file2 tolerance verbose in
  (PrimFloat.ltb eps_dbu (PrimFloat.sub (dbu l1) (dbu l2)) = true →
     run = ([], Raise (GeometryDifference
                         (Msg_dbu file1 (dbu l1) file2 (dbu l2))))) ∧
  (PrimFloat.leb (PrimFloat.abs (PrimFloat.sub (dbu l1) (dbu l2))) eps_dbu
     = true →
     ∀ f1 d1 f2 d2,
       raised run ≠ Some (GeometryDifference (Msg_dbu f1 d1 f2 d2))).
Proof.
  intros H1 H2 Hl Htc run. split.
  - intros Hd. by apply dbu_check_raises.
  - intros Hd f1 d1 f2 d2. apply dbu_within_eps_passes in Hd.
    destruct Hl as [Ha Hb]. unfold run, raised.
    rewrite (run_xor_outline_correct _ _ _ _ _ _ _ H1 H2).
    unfold run_xor_outline.
    rewrite Ha, Hb, bool_decide_eq_true_2, Hd by done. cbn [negb].
    by destruct (difftool_outline_end l1 file1 file2 tolerance verbose
                 (list_prod (matched_topcells l1 l2) (matched_layers l1 l2)))
      as [->|[->|[-> _]]].
Qed.

(** X3. A failed structural check leaves the geometry alone: when the two
    layouts disagree on layers, top cells or unit (as line 56 compares
    units), the call computes no XOR and prints nothing, raises a
    [GeometryDifference] with one of the three structural texts, and does
    the same for every tolerance and verbosity. *)
Theorem X3_structural_failure_touches_no_geometry (file1 file2 : string)
    (tolerance : Z) (verbose : bool) (l1 l2 : Layout Region) :
  kdb_read file1 = Return l1 → kdb_read file2 = Return l2 →
  ¬ structure_agrees l1 l2 →
  (∃ m, run_xor kdb_read file1 file2 tolerance verbose =
          ([], Raise (GeometryDifference m)) ∧
        is_structural m = true) ∧
  ∀ (tolerance' : Z) (verbose' : bool),
    run_xor kdb_read file1 file2 tolerance' verbose' =
    run_xor kdb_read file1 file2 tolerance verbose.
Proof.
  intros H1 H2 Hnot.
  rewrite (run_xor_outline_correct _ _ _ _ _ _ _ H1 H2).
  setoid_rewrite (run_xor_outline_correct _ _ _ _ _ _ _ H1 H2).
  unfold run_xor_outline, structure_agrees, layers_agree, topcells_agree in *.
  destruct (first_missing l1 l2) as [li|]; [by eauto|].
  destruct (first_missing l2 l1) as [li|]; [by eauto|].
  case_bool_decide as Htc; cbn [negb]; [|by eauto].
  destruct (dbu_differs (dbu l1) (dbu l2)); [by eauto|].
  by exfalso; apply Hnot.
Qed.

(** X4. A file that cannot be read (lines 23-27): whatever the reader
    raises for the first file, or for the second once the first is read,
    leaves [run_xor] unchanged and before anything is computed or printed;
    and the command line lets it pass as it is unless it is a
    [GeometryDifference]. *)
Theorem X4_load_error_propagates {Polygon : Type}
    (launch : list string → proc_result) (module_dir : string)
    (fast_boolean : list Polygon → list Polygon → string → float →
                    Z → Z → Z → option (list Polygon))
    (import_gds : string → outcome (gmap spec (list Polygon)))
    (file1 file2 : string) (tolerance : Z) (verbose : bool) (e : exn) :
  kdb_read file1 = Raise e ∨
  ((∃ l1, kdb_read file1 = Return l1) ∧ kdb_read file2 = Raise e) →
  run_xor kdb_read file1 file2 tolerance verbose = ([], Raise e) ∧
  (class_of e ≠ Cls_GeometryDifference →
   main kdb_read launch module_dir fast_boolean import_gds The_run_xor
        file1 file2 tolerance verbose = ([], Raise e)).
Proof.
  intros Hread.
  assert (Hrun : run_xor kdb_read file1 file2 tolerance verbose = ([], Raise e)).
  { destruct Hread as [H1|[[l1 H1] H2]]; unfold run_xor, lift.
    - by rewrite H1.
    - by rewrite H1, bind_return, H2. }
  split; [done|]. intros Hcls. rewrite main_exit_status.
  unfold call_run_xor. rewrite Hrun. by destruct e.
Qed.
End run_xor_more.

Section run_xor_reports.
Context {Region : Type} `{!RegionOps Region}.
Variable kdb_read : string → outcome (Layout Region).

(** With [verbose] each pair prints its line, in the order of the walk. *)
Lemma stdout_pair_events_verbose (l1 : Layout Region) (tolerance : Z)
    (pairs : list ((Cell Region * Cell Region) * (nat * nat))) :
  stdout (concat (pair_events l1 tolerance true <$> pairs)) =
  verbose_line l1 tolerance <$> pairs.
Proof.
  unfold stdout. induction pairs as [|p pairs IH]; [done|].
  rewrite !fmap_cons. cbn [concat]. by rewrite omap_app, IH.
Qed.

(** X5. [verbose] only prints: two calls on the same files and tolerance
    that differ in [verbose] end the same way (the same return, or the
    same exception with the same text) and compute the same XORs in the
    same order. *)
Theorem X5_verbose_only_prints (file1 file2 : string) (tolerance : Z)
    (verbose verbose' : bool) :
  (run_xor kdb_read file1 file2 tolerance verbose).2 =
  (run_xor kdb_read file1 file2 tolerance verbose').2 ∧
  xors (run_xor kdb_read file1 file2 tolerance verbose).1 =
  xors (run_xor kdb_read file1 file2 tolerance verbose').1.
Proof.
  destruct (kdb_read file1) as [l1|e1] eqn:H1;
    [|by unfold run_xor, lift; rewrite H1].
  destruct (kdb_read file2) as [l2|e2] eqn:H2;
    [|by unfold run_xor, lift; rewrite H1, bind_return, H2].
  rewrite !(run_xor_outline_correct _ _ _ _ _ _ _ H1 H2).
  unfold run_xor_outline.
  destruct (first_missing l1 l2); [done|].
  destruct (first_missing l2 l1); [done|].
  destruct (negb _); [done|]. destruct (dbu_differs _ _); [done|].
  unfold difftool_outline. destruct (tolerance_ok tolerance); cbn [fst snd].
  - by rewrite !xors_pair_events.
  - by destruct (list_prod _ _).
Qed.

(** X6. What a verbose run prints once the structural checks have passed
    (lines 71-77), for a tolerance of at most 2^31: one line per (top
    cell, layer) pair, in the order of the walk and nothing else; for a differing pair the line carries the
    polygon count of the eroded XOR, the name of the top cell and the
    [LayerInfo] of the first layout's layer, for any other pair the "No
    differences" line with the same name and layer. *)
Theorem X6_verbose_report (file1 file2 : string) (tolerance : Z)
    (l1 l2 : Layout Region) :
  kdb_read file1 = Return l1 → kdb_read file2 = Return l2 →
  structure_agrees l1 l2 → (tolerance ≤ 2147483648)%Z →
  stdout (run_xor kdb_read file1 file2 tolerance true).1 =
  (λ p, if negb (region_is_empty (eroded_xor tolerance p.1 p.2))
        then Line_differences (region_count (eroded_xor tolerance p.1 p.2))
               (name p.1.1) (get_info l1 p.2.1)
        else Line_no_differences (name p.1.1) (get_info l1 p.2.1))
    <$> list_prod (matched_topcells l1 l2) (matched_layers l1 l2).
Proof.
  intros H1 H2 Hs Hle.
  rewrite (run_xor_geometric _ _ _ _ _ l1 l2 H1 H2 Hs Hle). cbn [fst].
  apply stdout_pair_events_verbose.
Qed.

(** X7. A tolerance of zero or less asks for an exact match (line 68):
    the call with such a tolerance is the call with tolerance 0, in what
    it computes, prints and raises. *)
Theorem X7_nonpositive_tolerance_is_exact (file1 file2 : string)
    (tolerance : Z) (verbose : bool) :
  (tolerance ≤ 0)%Z →
  run_xor kdb_read file1 file2 tolerance verbose =
  run_xor kdb_read file1 file2 0 verbose.
Proof.
  intros Hle. unfold run_xor, topcell_body, xor_body.
  by rewrite (proj2 (Z.ltb_ge 0 tolerance) Hle).
Qed.

(** X8. The number of XORs computed once the structural checks have
    passed, for a tolerance of at most 2^31: the number of top cells
    times the number of layers of the first layout, whatever the pairs
    turn out to be. *)
Theorem X8_xor_count (file1 file2 : string) (tolerance : Z) (verbose : bool)
    (l1 l2 : Layout Region) :
  kdb_read file1 = Return l1 → kdb_read file2 = Return l2 →
  structure_agrees l1 l2 → (tolerance ≤ 2147483648)%Z →
  length (xors (run_xor kdb_read file1 file2 tolerance verbose).1) =
  (length (top_cells l1) * length (layer_indices l1))%nat.
Proof.
  intros H1 H2 Hs Hle.
  rewrite (run_xor_geometric _ _ _ _ _ l1 l2 H1 H2 Hs Hle). cbn [fst].
  destruct Hs as ([Ha Hb] & Htc & Hd).
  rewrite xors_pair_events, length_fmap, length_prod.
  rewrite <- (length_fmap (λ p, name p.1) (matched_topcells l1 l2)),
          (matched_topcells_names l1 l2 Htc).
  rewrite <- (length_fmap fst (matched_layers l1 l2)),
          (matched_layers_fst l1 l2 Ha).
  unfold topcell_names, sort.
  by rewrite merge_sort_Permutation, length_fmap.
Qed.

Lemma find_layer_Some (l : Layout Region) (li : LayerInfo) (i : nat) :
  find_layer l li = Some i → i ∈ layer_indices l ∧ get_info l i = li.
Proof.
  unfold find_layer. intros Hf. apply find_some in Hf as [Hi Hb].
  apply bool_decide_eq_true in Hb. split; [by apply list_elem_of_In|done].
Qed.

Lemma cell_Some (l : Layout Region) (n : string) (c : Cell Region) :
  cell l n = Some c → c ∈ top_cells l ∧ name c = n.
Proof.
  unfold cell. intros Hf. apply find_some in Hf as [Hc Hb].
  apply String.eqb_eq in Hb. split; [by apply list_elem_of_In|done].
Qed.

(** In a layout with distinct top-cell names, a top cell's name leads
    back to the cell. *)
Lemma cell_distinct (l : Layout Region) (c : Cell Region) :
  topcells_distinct l → c ∈ top_cells l → cell l (name c) = Some c.
Proof.
  unfold topcells_distinct, cell.
  induction (top_cells l) as [|d cs IH]; intros Hnd Hc.
  - by apply elem_of_nil in Hc.
  - rewrite fmap_cons in Hnd. apply NoDup_cons in Hnd as [Hd Hnd].
    cbn [List.find]. destruct (String.eqb (name d) (name c)) eqn:Heq.
    + apply String.eqb_eq in Heq.
      apply elem_of_cons in Hc as [->|Hc]; [done|].
      exfalso. apply Hd. rewrite Heq. by apply list_elem_of_fmap_2.
    + apply elem_of_cons in Hc as [->|Hc];
        [by rewrite String.eqb_refl in Heq | by apply IH].
Qed.

(** The pairs of the walk are the like pairs, and all of them. *)
Lemma pairs_are_like (l1 l2 : Layout Region) (c1 c2 : Cell Region)
    (ll1 ll2 : nat) :
  topcells_distinct l1 → topcells_distinct l2 → layers_distinct l2 →
  ((c1, c2), (ll1, ll2))
    ∈ list_prod (matched_topcells l1 l2) (matched_layers l1 l2) ↔
  c1 ∈ top_cells l1 ∧ c2 ∈ top_cells l2 ∧ name c2 = name c1 ∧
  ll1 ∈ layer_indices l1 ∧ ll2 ∈ layer_indices l2 ∧
  get_info l2 ll2 = get_info l1 ll1.
Proof.
  intros Hc1 Hc2 Hl2.
  rewrite list_elem_of_In, in_prod_iff, <- !list_elem_of_In.
  unfold matched_topcells, matched_layers. rewrite !list_elem_of_omap. split.
  - intros [(m & _ & Hc) (i & Hi & Hf)].
    destruct (find_layer l2 (get_info l1 i)) as [j|] eqn:Hj; [|done].
    injection Hf as <- <-. apply find_layer_Some in Hj as [Hj Hinfo].
    destruct (cell l1 m) as [d1|] eqn:Hd1; [|done].
    destruct (cell l2 m) as [d2|] eqn:Hd2; [|done].
    injection Hc as <- <-.
    apply cell_Some in Hd1 as [Hin1 Hn1], Hd2 as [Hin2 Hn2].
    repeat split; try done. by rewrite Hn1, Hn2.
  - intros (Hin1 & Hin2 & Hn & Hi & Hj & Hinfo). split.
    + exists (name c1). split.
      * apply topcell_names_elem. by apply list_elem_of_fmap_2.
      * rewrite (cell_distinct l1 c1 Hc1 Hin1). cbn.
        by rewrite <- Hn, (cell_distinct l2 c2 Hc2 Hin2).
    + exists ll1. split; [done|].
      by rewrite <- Hinfo, (find_layer_distinct l2 ll2 Hl2 Hj).
Qed.

(** X9. Like is compared with like.  Take layouts as a file gives them:
    no two top cells of one name, no two layers of the second with one
    [LayerInfo].  Once the structural checks have passed, and for a
    tolerance of at most 2^31, the call reports a difference exactly when
    the eroded XOR is non-empty for some top cell of the first layout
    against the top cell of the same name of the second, on some layer of
    the first against the layer of the second that carries the same
    [LayerInfo]. *)
Theorem X9_like_is_compared_with_like (file1 file2 : string)
    (tolerance : Z) (verbose : bool) (l1 l2 : Layout Region) :
  kdb_read file1 = Return l1 → kdb_read file2 = Return l2 →
  structure_agrees l1 l2 → (tolerance ≤ 2147483648)%Z →
  topcells_distinct l1 → topcells_distinct l2 → layers_distinct l2 →
  raised (run_xor kdb_read file1 file2 tolerance verbose) =
    Some (GeometryDifference (Msg_differences file1 file2)) ↔
  ∃ c1 c2 ll1 ll2,
    c1 ∈ top_cells l1 ∧ c2 ∈ top_cells l2 ∧ name c2 = name c1 ∧
    ll1 ∈ layer_indices l1 ∧ ll2 ∈ layer_indices l2 ∧
    get_info l2 ll2 = get_info l1 ll1 ∧
    region_is_empty
      (let rxor := region_xor (begin_shapes_rec c1 ll1)
                              (begin_shapes_rec c2 ll2) in
       if (0 <? tolerance)%Z then region_size rxor (- tolerance) else rxor)
    = false.
Proof.
  intros H1 H2 Hs Hle Hc1 Hc2 Hl2. unfold raised.
  rewrite (run_xor_geometric _ _ _ _ _ l1 l2 H1 H2 Hs Hle). cbn [snd].
  destruct (existsb (pair_differs tolerance) _) eqn:Hex.
  - split; [intros _|done].
    apply existsb_In in Hex as ([[c1 c2] [a b]] & Hp & Hdiff).
    exists c1, c2, a, b.
    apply pairs_are_like in Hp as (? & ? & ? & ? & ? & ?); [|done..].
    repeat split; try done.
    unfold pair_differs, eroded_xor in Hdiff.
    by apply negb_true_iff in Hdiff.
  - split; [done|].
    intros (c1 & c2 & a & b & Hin1 & Hin2 & Hn & Hi & Hj & Hinfo & Hne).
    exfalso. apply not_true_iff_false in Hex. apply Hex, existsb_In.
    exists ((c1, c2), (a, b)). split; [by apply pairs_are_like|].
    unfold pair_differs, eroded_xor. cbn [fst snd].
    by apply negb_true_iff.
Qed.
End run_xor_reports.

(** ** Swapping the two files *)

Section swap.
Context {Region : Type} `{!RegionOps Region} `{!RegionXorComm Region}.
Variable kdb_read : string → outcome (Layout Region).

Lemma matched_topcells_swap (l1 l2 : Layout Region)
    (c1 c2 : Cell Region) :
  topcells_agree l1 l2 →
  (c2, c1) ∈ matched_topcells l2 l1 → (c1, c2) ∈ matched_topcells l1 l2.
Proof.
  unfold matched_topcells, topcells_agree. intros Htc.
  rewrite !list_elem_of_omap. intros (n & Hn & Hc).
  exists n. rewrite Htc. split; [done|].
  destruct (cell l2 n) as [d2|]; [|done].
  destruct (cell l1 n) as [d1|]; [|done].
  by injection Hc as <- <-.
Qed.

Lemma matched_layers_swap (l1 l2 : Layout Region) (a b : nat) :
  layers_distinct l2 →
  (b, a) ∈ matched_layers l2 l1 → (a, b) ∈ matched_layers l1 l2.
Proof.
  unfold matched_layers. intros Hnd.
  rewrite !list_elem_of_omap. intros (i & Hi & Hf).
  destruct (find_layer l1 (get_info l2 i)) as [j|] eqn:Hj; [|done].
  injection Hf as <- <-. apply find_layer_Some in Hj as [Hj Hinfo].
  exists j. split; [done|].
  by rewrite Hinfo, (find_layer_distinct l2 i Hnd Hi).
Qed.

(** X10. Swapping the two files: under the spec's commutativity of the
    engine's XOR, for a second layout with distinct layers, a comparison
    that returns normally still returns normally with the files swapped,
    provided the unit check of line 56 passes in the swapped order too. *)
Theorem X10_swapped_files_agree (file1 file2 : string) (tolerance : Z)
    (verbose verbose' : bool) (l1 l2 : Layout Region) :
  kdb_read file1 = Return l1 → kdb_read file2 = Return l2 →
  layers_distinct l2 →
  dbu_differs (dbu l2) (dbu l1) = false →
  (run_xor kdb_read file1 file2 tolerance verbose).2 = Return tt →
  (run_xor kdb_read file2 file1 tolerance verbose').2 = Return tt.
Proof.
  intros H1 H2 Hnd Hd.
  rewrite (run_xor_outline_correct _ _ _ _ _ _ _ H1 H2),
          (run_xor_outline_correct _ _ _ _ _ _ _ H2 H1).
  unfold run_xor_outline.
  destruct (first_missing l1 l2); [done|].
  destruct (first_missing l2 l1); [done|].
  case_bool_decide as Htc; cbn [negb]; [|done].
  rewrite bool_decide_eq_true_2, Hd by done. cbn [negb snd].
  destruct (dbu_differs (dbu l1) (dbu l2)); [done|].
  assert (Hswap : ∀ c1 c2 a b,
            ((c2, c1), (b, a))
              ∈ list_prod (matched_topcells l2 l1) (matched_layers l2 l1) →
            ((c1, c2), (a, b))
              ∈ list_prod (matched_topcells l1 l2) (matched_layers l1 l2)).
  { intros c1 c2 a b Hp.
    apply list_elem_of_In, in_prod_iff in Hp as [Hc Hl].
    apply list_elem_of_In in Hc, Hl.
    apply list_elem_of_In, in_prod_iff.
    split; apply list_elem_of_In;
      [by apply matched_topcells_swap | by apply matched_layers_swap]. }
  unfold difftool_outline. destruct (tolerance_ok tolerance); cbn [snd].
  - destruct (existsb _ (list_prod (matched_topcells l1 l2) _)) eqn:Hex;
      [done|]. intros _.
    destruct (existsb _ (list_prod (matched_topcells l2 l1) _)) eqn:Hex';
      [exfalso|done].
    apply existsb_In in Hex' as ([[c2 c1] [b a]] & Hp & Hdiff).
    apply not_true_iff_false in Hex. apply Hex, existsb_In.
    exists ((c1, c2), (a, b)). split; [by apply Hswap|].
    unfold pair_differs, eroded_xor in *. cbn [fst snd] in *.
    by rewrite xor_comm.
  - destruct (list_prod (matched_topcells l1 l2) _) as [|p ps] eqn:Hp12;
      [|done]. intros _.
    destruct (list_prod (matched_topcells l2 l1) _)
      as [|[[c2 c1] [b a]] ps] eqn:Hp21; [done|exfalso].
    specialize (Hswap c1 c2 a b). by apply elem_of_nil in Hswap; [|left].
Qed.
End swap.

Lemma pixel_xor_comm : RegionXorComm pixels.
Proof.
  intros a b. unfold region_xor, pixel_ops. apply set_eq. intros p.
  rewrite !elem_of_union. tauto.
Qed.

(** ** The command sent to the external tool *)

Lemma split_nonempty (sep : ascii) (s : string) : split sep s ≠ [].
Proof.
  destruct s as [|c s]; [done|]. cbn [split].
  destruct (Ascii.eqb c sep); [done|]. by destruct (split sep s).
Qed.

Lemma concat_cons_char (sep : string) (c : ascii) (w : string)
    (ws : list string) :
  String.concat sep (String c w :: ws) = String c (String.concat sep (w :: ws)).
Proof. by destruct ws. Qed.

(** Joining what [split] returns gives the string back. *)
Lemma join_split (sep : ascii) (s : string) :
  String.concat (String sep "") (split sep s) = s.
Proof.
  induction s as [|c s IH]; [done|]. cbn [split].
  destruct (Ascii.eqb c sep) eqn:Hc.
  - apply Ascii.eqb_eq in Hc as ->.
    pose proof (split_nonempty sep s) as Hne.
    destruct (split sep s) as [|w ws] eqn:Hs; [done|].
    cbn [String.concat]. by rewrite <- IH.
  - pose proof (split_nonempty sep s) as Hne.
    destruct (split sep s) as [|w ws] eqn:Hs; [done|].
    by rewrite concat_cons_char, IH.
Qed.

Lemma split_no_sep_app (sep : ascii) (x s : string) :
  count_char sep x = 0 →
  split sep (x +:+ s) =
  match split sep s with
  | w :: ws => (x +:+ w) :: ws
  | [] => [x]
  end.
Proof.
  induction x as [|c x IH]; intros Hx.
  - cbn. by destruct (split sep s) eqn:Hs; [apply split_nonempty in Hs|].
  - cbn [count_char] in Hx.
    change (String c x +:+ s) with (String c (x +:+ s)). cbn [split].
    destruct (Ascii.eqb c sep); [done|]. rewrite IH by done.
    by destruct (split sep s) eqn:Hs; [apply split_nonempty in Hs|].
Qed.

Lemma split_no_sep (sep : ascii) (x : string) :
  count_char sep x = 0 → split sep x = [x].
Proof.
  intros Hx. induction x as [|c x IH]; [done|].
  cbn [count_char] in Hx. cbn [split].
  destruct (Ascii.eqb c sep); [done|]. by rewrite IH.
Qed.

(** Splitting a joined list gives the list back when it is not empty and
    none of its items holds the separator. *)
Lemma split_join (sep : ascii) (l : list string) :
  l ≠ [] → Forall (λ x, count_char sep x = 0) l →
  split sep (String.concat (String sep "") l) = l.
Proof.
  intros Hne Hall. induction l as [|x l IH]; [done|].
  apply Forall_cons in Hall as [Hx Hall].
  destruct l as [|y l]; [by apply split_no_sep|].
  change (String.concat (String sep "") (x :: y :: l))
    with (x +:+ String sep (String.concat (String sep "") (y :: l))).
  rewrite split_no_sep_app by done.
  cbn [split]. rewrite Ascii.eqb_refl, IH by done.
  f_equal. clear. induction x as [|c x IHx]; [done|].
  change (String c x +:+ "") with (String c (x +:+ "")). by rewrite IHx.
Qed.

Lemma length_split (sep : ascii) (s : string) :
  length (split sep s) = S (count_char sep s).
Proof.
  induction s as [|c s IH]; [done|]. cbn [split count_char].
  destruct (Ascii.eqb c sep); cbn [length]; [rewrite IH; lia|].
  pose proof (split_nonempty sep s) as Hne.
  destruct (split sep s) as [|w ws]; [done|]. cbn [length] in *. lia.
Qed.

(** X11. [join] and [split] undo each other.  For every string,
    [sep.join(s.split(sep)) == s], and [s.split(sep)] has one item more
    than [s] has separators.  For a list that is not empty and whose items
    hold no separator, [sep.join(l).split(sep) == l]; the empty list is
    the exception, [sep.join([]).split(sep)] being [['']]. *)
Theorem X11_split_join_round_trip (sep : ascii) :
  (∀ s : string,
     String.concat (String sep "") (split sep s) = s ∧
     length (split sep s) = S (count_char sep s)) ∧
  (∀ l : list string,
     l ≠ [] → Forall (λ x, count_char sep x = 0) l →
     split sep (String.concat (String sep "") l) = l) ∧
  split sep (String.concat (String sep "") []) = [""].
Proof.
  split; [|split; [|done]].
  - intros s. split; [apply join_split | apply length_split].
  - apply split_join.
Qed.










(** ** How a call of the external tool ends *)



(** ** More on the polygon-boolean routine *)

Section phidl_more.
Context {Polygon : Type}.
Variable fast_boolean :
  list Polygon → list Polygon → string → float → Z → Z → Z →
  option (list Polygon).
Variable import_gds : string → outcome (gmap spec (list Polygon)).
Implicit Types A B : gmap spec (list Polygon).

Lemma run_xor_phidl_imported (file1 file2 : string) (tolerance : Z)
    (verbose : bool) A B :
  import_gds file1 = Return A → import_gds file2 = Return B →
  run_xor_phidl fast_boolean import_gds file1 file2 tolerance verbose =
  ([], if bool_decide (xor_polygons_phidl fast_boolean A B = [])
       then Return tt
       else Raise (GeometryDifference (Msg_differences file1 file2))).
Proof.
  intros HA HB. unfold run_xor_phidl, lift.
  rewrite HA, bind_return, HB, bind_return.
  destruct (xor_polygons_phidl fast_boolean A B) as [|el els]; [done|].
  by rewrite bool_decide_eq_false_2.
Qed.

Lemma has_polygons_true (p : option (list Polygon)) :
  has_polygons p = true ↔ ∃ q ps, p = Some (q :: ps).
Proof.
  destruct p as [[|q ps]|]; cbn; split; try done; eauto;
    by intros (? & ? & [=]).
Qed.

Lemma layer_result_has_polygons A B (layer : spec) :
  has_polygons (layer_result fast_boolean A B layer) = true ↔
  ∃ q, (q, layer) ∈ xor_polygons_phidl fast_boolean A B.
Proof.
  rewrite has_polygons_true. split.
  - intros (q & ps & Hres). exists q. apply xor_polygons_phidl_elem.
    exists (q :: ps). split; [done|left].
  - intros (q & (ps & Hres & Hq)%xor_polygons_phidl_elem).
    destruct ps as [|q' ps]; [by apply elem_of_nil in Hq|]. eauto.
Qed.

Lemma xor_polygons_phidl_nil A B :
  xor_polygons_phidl fast_boolean A B = [] ↔
  ∀ layer, has_polygons (layer_result fast_boolean A B layer) = false.
Proof.
  split.
  - intros Hnil layer. apply not_true_iff_false.
    rewrite layer_result_has_polygons, Hnil. by intros (q & ?%elem_of_nil).
  - intros Hall.
    destruct (xor_polygons_phidl fast_boolean A B) as [|[q layer] els] eqn:Hx;
      [done|].
    specialize (Hall layer). apply not_true_iff_false in Hall.
    exfalso. apply Hall, layer_result_has_polygons. exists q.
    rewrite Hx. left.
Qed.

(** X17. A layer that only one of the two devices has, with at least one
    polygon on it, is a difference: the call raises the
    [GeometryDifference] naming both files, without asking [gdspy] about
    that layer and whatever the other layers hold (lines 121-126). *)
Theorem X17_phidl_one_sided_layer (file1 file2 : string) (tolerance : Z)
    (verbose : bool) A B (layer : spec) (q : Polygon) (ps : list Polygon) :
  import_gds file1 = Return A → import_gds file2 = Return B →
  (A !! layer = Some (q :: ps) ∧ B !! layer = None) ∨
  (A !! layer = None ∧ B !! layer = Some (q :: ps)) →
  run_xor_phidl fast_boolean import_gds file1 file2 tolerance verbose =
  ([], Raise (GeometryDifference (Msg_differences file1 file2))).
Proof.
  intros HA HB Hside. rewrite (run_xor_phidl_imported _ _ _ _ A B HA HB).
  rewrite bool_decide_eq_false_2; [done|].
  rewrite xor_polygons_phidl_nil. intros Hall. specialize (Hall layer).
  unfold layer_result in Hall.
  by destruct Hside as [[Ha Hb]|[Ha Hb]]; rewrite Ha, Hb in Hall.
Qed.

(** X18. Two files holding the same polygons compare equal as soon as
    [gdspy]'s XOR of each layer's polygons with themselves yields no
    polygon: the call then returns normally and silently.  Two files
    without any polygon always compare equal. *)
Theorem X18_phidl_same_polygons (file1 file2 : string) (tolerance : Z)
    (verbose : bool) A :
  import_gds file1 = Return A → import_gds file2 = Return A →
  (∀ layer ps, A !! layer = Some ps →
     has_polygons (fast_boolean ps ps "xor" xor_precision 4000
                     layer.1 layer.2) = false) →
  run_xor_phidl fast_boolean import_gds file1 file2 tolerance verbose =
  ([], Return tt).
Proof.
  intros H1 H2 Hself. rewrite (run_xor_phidl_imported _ _ _ _ A A H1 H2).
  rewrite bool_decide_eq_true_2; [done|].
  apply xor_polygons_phidl_nil. intros layer. unfold layer_result.
  destruct (A !! layer) as [ps|] eqn:Hl; [|done]. by apply Hself.
Qed.

(** X19. Swapping the two files: if [gdspy]'s XOR yields a polygon for
    operands [a], [b] exactly when it does for [b], [a], a comparison that
    returns normally returns normally with the files swapped. *)
Theorem X19_phidl_swapped_files_agree (file1 file2 : string)
    (tolerance tolerance' : Z) (verbose verbose' : bool) :
  (∀ a b (layer : spec),
     has_polygons (fast_boolean a b "xor" xor_precision 4000
                     layer.1 layer.2) =
     has_polygons (fast_boolean b a "xor" xor_precision 4000
                     layer.1 layer.2)) →
  (run_xor_phidl fast_boolean import_gds file1 file2 tolerance verbose).2
    = Return tt →
  (run_xor_phidl fast_boolean import_gds file2 file1 tolerance' verbose').2
    = Return tt.
Proof.
  intros Hsym.
  destruct (import_gds file1) as [A|e1] eqn:H1;
    [|by unfold run_xor_phidl, lift; rewrite H1].
  destruct (import_gds file2) as [B|e2] eqn:H2;
    [|by unfold run_xor_phidl, lift; rewrite H1, bind_return, H2].
  rewrite (run_xor_phidl_imported _ _ _ _ A B H1 H2),
          (run_xor_phidl_imported _ _ _ _ B A H2 H1).
  cbn [snd]. case_bool_decide as Hab; [intros _|done].
  rewrite bool_decide_eq_true_2; [done|].
  apply xor_polygons_phidl_nil. intros layer.
  rewrite xor_polygons_phidl_nil in Hab. specialize (Hab layer).
  unfold layer_result in *.
  destruct (A !! layer), (B !! layer); try done. by rewrite Hsym.
Qed.
End phidl_more.

(** ** The two flags *)

(** X20. The probe never raises, prints nothing, and sets at most one of
    the two flags: [using_phidl] exactly when [klayout.db] cannot be
    imported and [phidl], [gdspy] and [phidl.geometry] all can,
    [using_macros] exactly when neither [klayout.db] nor all of those
    three can.  So at most one of the two rebindings of [run_xor] (lines
    100-101, 138-139) takes place. *)
Theorem X20_flags_exclusive (env : environment) :
  ∃ f, probe env = ([], Return f) ∧
       using_phidl f && using_macros f = false ∧
       (using_phidl f = true ↔
          has_klayout_db env = false ∧
          has_phidl env && has_gdspy env && has_phidl_geometry env = true) ∧
       (using_macros f = true ↔
          has_klayout_db env = false ∧
          has_phidl env && has_gdspy env && has_phidl_geometry env = false).
Proof.
  destruct env as [kdb ph gd pg tool].
  cbn [has_klayout_db has_phidl has_gdspy has_phidl_geometry].
  destruct kdb, ph, gd, pg; eexists; (split; [reflexivity|]); cbn;
    repeat split; try done; by intros [? ?].
Qed.

(** ** The further properties on the sample files *)

Lemma X1_topcell_check_witness :
  sample_disk_more "ref.gds" = Return layout_ref ∧
  sample_disk_more "other_top.gds" = Return layout_other_top ∧
  layers_agree layout_ref layout_other_top ∧
  ¬ (name <$> top_cells layout_ref) ≡ₚ (name <$> top_cells layout_other_top) ∧
  run_xor sample_disk_more "ref.gds" "other_top.gds" 10 true =
    ([], Raise (GeometryDifference (Msg_topcell ["TOP"] ["OTHER"]))).
Proof.
  assert (Hl : layers_agree layout_ref layout_other_top)
    by (split; reflexivity).
  assert (Hnp : ¬ (name <$> top_cells layout_ref)
                  ≡ₚ (name <$> top_cells layout_other_top)).
  { intros Hp. apply Permutation_singleton_l in Hp. discriminate Hp. }
  split; [reflexivity|]. split; [reflexivity|]. split; [exact Hl|].
  split; [exact Hnp|].
  exact (proj1 (X1_topcell_check sample_disk_more "ref.gds" "other_top.gds"
                  10 true layout_ref layout_other_top eq_refl eq_refl Hl)
           Hnp).
Defined.

Lemma X2_dbu_check_witness :
  sample_disk "coarse.gds" = Return layout_coarse ∧
  sample_disk "ref.gds" = Return layout_ref ∧
  layers_agree layout_coarse layout_ref ∧
  topcells_agree layout_coarse layout_ref ∧
  PrimFloat.ltb eps_dbu
    (PrimFloat.sub (dbu layout_coarse) (dbu layout_ref)) = true ∧
  run_xor sample_disk "coarse.gds" "ref.gds" 10 false =
    ([], Raise (GeometryDifference
                  (Msg_dbu "coarse.gds" (dbu layout_coarse)
                           "ref.gds" (dbu layout_ref)))).
Proof.
  assert (Hl : layers_agree layout_coarse layout_ref) by (split; reflexivity).
  assert (Ht : topcells_agree layout_coarse layout_ref) by reflexivity.
  split; [reflexivity|]. split; [reflexivity|]. split; [exact Hl|].
  split; [exact Ht|]. split; [reflexivity|].
  exact (proj1 (X2_dbu_check sample_disk "coarse.gds" "ref.gds" 10 false
                  layout_coarse layout_ref eq_refl eq_refl Hl Ht) eq_refl).
Defined.

Lemma X3_structural_failure_touches_no_geometry_witness :
  sample_disk "ref.gds" = Return layout_ref ∧
  sample_disk "one_layer.gds" = Return layout_one_layer ∧
  ¬ structure_agrees layout_ref layout_one_layer ∧
  ∃ m, run_xor sample_disk "ref.gds" "one_layer.gds" 10 true =
         ([], Raise (GeometryDifference m)) ∧
       is_structural m = true.
Proof.
  assert (Hn : ¬ structure_agrees layout_ref layout_one_layer).
  { intros [[Ha _] _]. vm_compute in Ha. discriminate Ha. }
  split; [reflexivity|]. split; [reflexivity|]. split; [exact Hn|].
  exact (proj1 (X3_structural_failure_touches_no_geometry sample_disk
                  "ref.gds" "one_layer.gds" 10 true layout_ref
                  layout_one_layer eq_refl eq_refl Hn)).
Defined.

Lemma X4_load_error_propagates_witness :
  sample_disk "nowhere.gds" = Raise (LibraryError "kdb.Layout.read") ∧
  run_xor sample_disk "nowhere.gds" "ref.gds" 10 false =
    ([], Raise (LibraryError "kdb.Layout.read")).
Proof.
  split; [reflexivity|].
  exact (proj1 (X4_load_error_propagates sample_disk no_klayout "/opt/lytest"
                  sample_boolean sample_gds "nowhere.gds" "ref.gds" 10 false
                  (LibraryError "kdb.Layout.read") (or_introl eq_refl))).
Defined.

Lemma X6_verbose_report_witness :
  sample_disk "ref.gds" = Return layout_ref ∧
  sample_disk "speck.gds" = Return layout_speck ∧
  structure_agrees layout_ref layout_speck ∧
  stdout (run_xor sample_disk "ref.gds" "speck.gds" 0 true).1 =
    [Line_differences 1 "TOP" (mkLayerInfo 1 0);
     Line_no_differences "TOP" (mkLayerInfo 2 0)].
Proof.
  assert (Hs : structure_agrees layout_ref layout_speck)
    by (repeat split; reflexivity).
  assert (Hle : (0 ≤ 2147483648)%Z) by lia.
  split; [reflexivity|]. split; [reflexivity|]. split; [exact Hs|].
  exact (X6_verbose_report sample_disk "ref.gds" "speck.gds" 0
           layout_ref layout_speck eq_refl eq_refl Hs Hle).
Defined.

Lemma X7_nonpositive_tolerance_is_exact_witness :
  (-3 ≤ 0)%Z ∧
  run_xor sample_disk "ref.gds" "speck.gds" (-3) true =
  run_xor sample_disk "ref.gds" "speck.gds" 0 true.
Proof.
  assert (Hle : (-3 ≤ 0)%Z) by lia.
  split; [exact Hle|].
  exact (X7_nonpositive_tolerance_is_exact sample_disk "ref.gds" "speck.gds"
           (-3) true Hle).
Defined.

Lemma X8_xor_count_witness :
  sample_disk "ref.gds" = Return layout_ref ∧
  sample_disk "speck.gds" = Return layout_speck ∧
  structure_agrees layout_ref layout_speck ∧
  length (xors (run_xor sample_disk "ref.gds" "speck.gds" 0 false).1) =
    (1 * 2)%nat.
Proof.
  assert (Hs : structure_agrees layout_ref layout_speck)
    by (repeat split; reflexivity).
  assert (Hle : (0 ≤ 2147483648)%Z) by lia.
  split; [reflexivity|]. split; [reflexivity|]. split; [exact Hs|].
  exact (X8_xor_count sample_disk "ref.gds" "speck.gds" 0 false
           layout_ref layout_speck eq_refl eq_refl Hs Hle).
Defined.

Lemma X9_like_is_compared_with_like_witness :
  sample_disk "ref.gds" = Return layout_ref ∧
  sample_disk "speck.gds" = Return layout_speck ∧
  structure_agrees layout_ref layout_speck ∧
  (0 ≤ 2147483648)%Z ∧
  topcells_distinct layout_ref ∧ topcells_distinct layout_speck ∧
  layers_distinct layout_speck ∧
  ∃ c1 c2 ll1 ll2,
    c1 ∈ top_cells layout_ref ∧ c2 ∈ top_cells layout_speck ∧
    name c2 = name c1 ∧
    ll1 ∈ layer_indices layout_ref ∧ ll2 ∈ layer_indices layout_speck ∧
    get_info layout_speck ll2 = get_info layout_ref ll1 ∧
    region_is_empty
      (let rxor := region_xor (begin_shapes_rec c1 ll1)
                              (begin_shapes_rec c2 ll2) in
       if (0 <? 0)%Z then region_size rxor (- 0) else rxor) = false.
Proof.
  assert (Hs : structure_agrees layout_ref layout_speck)
    by (repeat split; reflexivity).
  assert (Hle : (0 ≤ 2147483648)%Z) by lia.
  assert (Hc1 : topcells_distinct layout_ref)
    by (apply (bool_decide_unpack _); reflexivity).
  assert (Hc2 : topcells_distinct layout_speck)
    by (apply (bool_decide_unpack _); reflexivity).
  assert (Hl2 : layers_distinct layout_speck)
    by (apply (bool_decide_unpack _); reflexivity).
  split; [reflexivity|]. split; [reflexivity|]. split; [exact Hs|].
  split; [exact Hle|]. split; [exact Hc1|]. split; [exact Hc2|].
  split; [exact Hl2|].
  exact (proj1 (X9_like_is_compared_with_like sample_disk
                  "ref.gds" "speck.gds" 0 false layout_ref layout_speck
                  eq_refl eq_refl Hs Hle Hc1 Hc2 Hl2) eq_refl).
Defined.

Lemma X10_swapped_files_agree_witness :
  sample_disk "ref.gds" = Return layout_ref ∧
  sample_disk "wide.gds" = Return layout_wide ∧
  layers_distinct layout_wide ∧
  dbu_differs (dbu layout_wide) (dbu layout_ref) = false ∧
  (run_xor sample_disk "ref.gds" "wide.gds" 1 false).2 = Return tt ∧
  (run_xor sample_disk "wide.gds" "ref.gds" 1 true).2 = Return tt.
Proof.
  assert (Hnd : layers_distinct layout_wide)
    by (apply (bool_decide_unpack _); reflexivity).
  assert (Hrun : (run_xor sample_disk "ref.gds" "wide.gds" 1 false).2
                 = Return tt) by reflexivity.
  split; [reflexivity|]. split; [reflexivity|]. split; [exact Hnd|].
  split; [reflexivity|]. split; [exact Hrun|].
  exact (X10_swapped_files_agree (RegionXorComm0 := pixel_xor_comm)
           sample_disk "ref.gds" "wide.gds" 1 false true
           layout_ref layout_wide eq_refl eq_refl Hnd eq_refl Hrun).
Defined.


Lemma sample_boolean_sym (a b : list nat) (layer : spec) :
  has_polygons (sample_boolean a b "xor" xor_precision 4000 layer.1 layer.2) =
  has_polygons (sample_boolean b a "xor" xor_precision 4000 layer.1 layer.2).
Proof.
  unfold sample_boolean.
  destruct (list_difference a b) as [|x xs], (list_difference b a) as [|y ys];
    done.
Qed.

Lemma X17_phidl_one_sided_layer_witness :
  sample_gds "ref.gds" = Return {[ (1, 0)%Z := [7%nat] ]} ∧
  sample_gds "more.gds" =
    Return {[ (1, 0)%Z := [7%nat]; (2, 0)%Z := [8%nat] ]} ∧
  run_xor_phidl sample_boolean sample_gds "ref.gds" "more.gds" 10 false =
    ([], Raise (GeometryDifference (Msg_differences "ref.gds" "more.gds"))).
Proof.
  split; [reflexivity|]. split; [reflexivity|].
  apply (X17_phidl_one_sided_layer sample_boolean sample_gds
           "ref.gds" "more.gds" 10 false _ _ (2, 0)%Z 8%nat []
           eq_refl eq_refl).
  right. split; reflexivity.
Defined.

Lemma X18_phidl_same_polygons_witness :
  sample_gds "ref.gds" = Return {[ (1, 0)%Z := [7%nat] ]} ∧
  run_xor_phidl sample_boolean sample_gds "ref.gds" "ref.gds" 10 false =
    ([], Return tt).
Proof.
  split; [reflexivity|].
  apply (X18_phidl_same_polygons sample_boolean sample_gds
           "ref.gds" "ref.gds" 10 false _ eq_refl eq_refl).
  intros layer ps Hl. apply lookup_singleton_Some in Hl as [_ <-].
  reflexivity.
Defined.

Lemma X19_phidl_swapped_files_agree_witness :
  (∀ a b (layer : spec),
     has_polygons (sample_boolean a b "xor" xor_precision 4000
                     layer.1 layer.2) =
     has_polygons (sample_boolean b a "xor" xor_precision 4000
                     layer.1 layer.2)) ∧
  (run_xor_phidl sample_boolean sample_gds_more "ref.gds" "copy.gds" 10 false).2
    = Return tt ∧
  (run_xor_phidl sample_boolean sample_gds_more "copy.gds" "ref.gds" 0 true).2
    = Return tt.
Proof.
  assert (Hrun : (run_xor_phidl sample_boolean sample_gds_more
                    "ref.gds" "copy.gds" 10 false).2 = Return tt)
    by reflexivity.
  split; [exact sample_boolean_sym|]. split; [exact Hrun|].
  exact (X19_phidl_swapped_files_agree sample_boolean sample_gds_more
           "ref.gds" "copy.gds" 10 0 false true sample_boolean_sym Hrun).
Defined.

(** ** The command line over the in-process routine *)

(** X21. With two readable files and a tolerance of at most 2^31 the
    command line over [run_xor] always ends with an exit status, 0 or 1,
    and never on an exception: 0 exactly when the three structural checks
    pass and no pair differs, 1 in every other case, a structural
    mismatch included, and then the last thing printed is the text of the
    [GeometryDifference]. *)
Theorem X21_main_over_run_xor {Region : Type} `{!RegionOps Region}
    {Polygon : Type}
    (kdb_read : string → outcome (Layout Region))
    (launch : list string → proc_result) (module_dir : string)
    (fast_boolean : list Polygon → list Polygon → string → float →
                    Z → Z → Z → option (list Polygon))
    (import_gds : string → outcome (gmap spec (list Polygon)))
    (file1 file2 : string) (tol : Z) (verbose : bool)
    (l1 l2 : Layout Region) :
  kdb_read file1 = Return l1 → kdb_read file2 = Return l2 →
  (tol ≤ 2147483648)%Z →
  let run := main kdb_read launch module_dir fast_boolean import_gds
                  The_run_xor file1 file2 tol verbose in
  let pairs := list_prod (matched_topcells l1 l2) (matched_layers l1 l2) in
  (run.2 = Return 0%Z ∨ run.2 = Return 1%Z) ∧
  (run.2 = Return 0%Z ↔
     structure_agrees l1 l2 ∧ existsb (pair_differs tol) pairs = false) ∧
  (run.2 = Return 1%Z →
     ∃ m, last (stdout run.1) = Some (Line_exn (GeometryDifference m))).
Proof.
  intros H1 H2 Hle run pairs. unfold run. rewrite main_exit_status.
  unfold call_run_xor.
  rewrite (run_xor_outline_correct _ _ _ _ _ _ _ H1 H2).
  unfold run_xor_outline, structure_agrees, layers_agree, topcells_agree.
  destruct (first_missing l1 l2) as [li|]; cbn [fst snd].
  { split; [by right|]. split; [split; [done|by intros [[[[=] _] _] _]]|].
    by eauto. }
  destruct (first_missing l2 l1) as [li|]; cbn [fst snd].
  { split; [by right|]. split; [split; [done|by intros [[[_ [=]] _] _]]|].
    by eauto. }
  case_bool_decide as Htc; cbn [negb fst snd].
  2:{ split; [by right|]. split; [split; [done|by intros [(_ & ? & _) _]]|].
      by eauto. }
  destruct (dbu_differs (dbu l1) (dbu l2)); cbn [fst snd].
  { split; [by right|]. split; [split; [done|by intros [(_ & _ & [=]) _]]|].
    by eauto. }
  rewrite difftool_outline_in_range by done.
  fold pairs. destruct (existsb (pair_differs tol) pairs); cbn [fst snd].
  - split; [by right|]. split; [split; [done|by intros [_ [=]]]|].
    intros _. eexists. unfold stdout. rewrite omap_app. cbn [omap list_omap].
    by rewrite last_snoc.
  - split; [by left|]. split; [done|done].
Qed.

Lemma X21_main_over_run_xor_witness :
  sample_disk "ref.gds" = Return layout_ref ∧
  sample_disk "one_layer.gds" = Return layout_one_layer ∧
  (10 ≤ 2147483648)%Z ∧
  ((main sample_disk no_klayout "/opt/lytest" sample_boolean sample_gds
         The_run_xor "ref.gds" "one_layer.gds" 10 false).2 = Return 0%Z ∨
   (main sample_disk no_klayout "/opt/lytest" sample_boolean sample_gds
         The_run_xor "ref.gds" "one_layer.gds" 10 false).2 = Return 1%Z).
Proof.
  assert (Hle : (10 ≤ 2147483648)%Z) by lia.
  split; [reflexivity|]. split; [reflexivity|]. split; [exact Hle|].
  exact (proj1 (X21_main_over_run_xor sample_disk no_klayout "/opt/lytest"
                  sample_boolean sample_gds "ref.gds" "one_layer.gds" 10 false
                  layout_ref layout_one_layer eq_refl eq_refl Hle)).
Defined.

(** ** A tolerance beyond the engine's coordinates *)

(** The number of pairs of the walk. *)
Lemma length_pairs {Region : Type} (l1 l2 : Layout Region) :
  first_missing l1 l2 = None → topcells_agree l1 l2 →
  length (list_prod (matched_topcells l1 l2) (matched_layers l1 l2)) =
  (length (top_cells l1) * length (layer_indices l1))%nat.
Proof.
  intros Ha Htc. rewrite length_prod.
  rewrite <- (length_fmap (λ p, name p.1) (matched_topcells l1 l2)),
          (matched_topcells_names l1 l2 Htc).
  rewrite <- (length_fmap fst (matched_layers l1 l2)),
          (matched_layers_fst l1 l2 Ha).
  unfold topcell_names, sort.
  by rewrite merge_sort_Permutation, length_fmap.
Qed.

(** X22. For a tolerance above 2^31 and layouts that pass the structural
    checks, the call reaches no verdict unless there is nothing to
    compare.  With no top cell or no layer it returns.  Otherwise it
    computes the XOR of the first pair only, prints nothing even when
    verbose, and ends on the [TypeError] of [Region.size] at line 69,
    which the command line does not catch. *)
Theorem X22_tolerance_beyond_coordinates {Region : Type} `{!RegionOps Region}
    {Polygon : Type}
    (kdb_read : string → outcome (Layout Region))
    (launch : list string → proc_result) (module_dir : string)
    (fast_boolean : list Polygon → list Polygon → string → float →
                    Z → Z → Z → option (list Polygon))
    (import_gds : string → outcome (gmap spec (list Polygon)))
    (file1 file2 : string) (tolerance : Z) (verbose : bool)
    (l1 l2 : Layout Region) :
  kdb_read file1 = Return l1 → kdb_read file2 = Return l2 →
  structure_agrees l1 l2 → (2147483648 < tolerance)%Z →
  let pairs := list_prod (matched_topcells l1 l2) (matched_layers l1 l2) in
  (pairs = [] ↔ top_cells l1 = [] ∨ layer_indices l1 = []) ∧
  run_xor kdb_read file1 file2 tolerance verbose =
    match pairs with
    | [] => ([], Return tt)
    | p :: _ => ([Ev_xor (name p.1.1) p.2.1 p.2.2],
                 Raise (TypeError "Region.size"))
    end ∧
  main kdb_read launch module_dir fast_boolean import_gds The_run_xor
       file1 file2 tolerance verbose =
    match pairs with
    | [] => ([], Return 0%Z)
    | p :: _ => ([Ev_xor (name p.1.1) p.2.1 p.2.2],
                 Raise (TypeError "Region.size"))
    end.
Proof.
  intros H1 H2 ([Ha Hb] & Htc & Hd) Hlt pairs.
  assert (Hrun : run_xor kdb_read file1 file2 tolerance verbose =
    match pairs with
    | [] => ([], Return tt)
    | p :: _ => ([Ev_xor (name p.1.1) p.2.1 p.2.2],
                 Raise (TypeError "Region.size"))
    end).
  { rewrite (run_xor_outline_correct _ _ _ _ _ _ _ H1 H2).
    unfold run_xor_outline.
    rewrite Ha, Hb, bool_decide_eq_true_2, Hd by done. cbn [negb].
    unfold difftool_outline.
    destruct (tolerance_ok tolerance) eqn:Hok; [|done].
    apply tolerance_ok_le in Hok. lia. }
  split; [|split; [exact Hrun|]].
  - rewrite <- !length_zero_iff_nil. unfold pairs.
    rewrite (length_pairs l1 l2 Ha Htc). apply Nat.eq_mul_0.
  - rewrite main_exit_status. unfold call_run_xor. rewrite Hrun.
    by destruct pairs.
Qed.

(** The reference against its copy at tolerance 2^32 + 1, verbose. *)
Lemma X22_tolerance_beyond_coordinates_witness :
  sample_disk "ref.gds" = Return layout_ref ∧
  sample_disk "copy.gds" = Return layout_ref ∧
  structure_agrees layout_ref layout_ref ∧
  (2147483648 < 4294967297)%Z ∧
  run_xor sample_disk "ref.gds" "copy.gds" 4294967297 true =
    ([Ev_xor "TOP" 0 0], Raise (TypeError "Region.size")).
Proof.
  assert (Hs : structure_agrees layout_ref layout_ref)
    by (repeat split; reflexivity).
  assert (Hlt : (2147483648 < 4294967297)%Z) by lia.
  split; [reflexivity|]. split; [reflexivity|]. split; [exact Hs|].
  split; [exact Hlt|].
  exact (proj1 (proj2 (X22_tolerance_beyond_coordinates sample_disk
                         no_klayout "/opt/lytest" sample_boolean sample_gds
                         "ref.gds" "copy.gds" 4294967297 true
                         layout_ref layout_ref eq_refl eq_refl Hs Hlt))).
Defined.
